(** * dewi-app: the video production pipeline

    A shallow embedding of the pipeline of [backend/app]:
    - [app/services/video_service.py]  (overlay timing, escaping, assembler),
    - [app/services/tts_service.py]    (narration synthesizer adapter),
    - [app/services/claude_service.py] (script generation with its fallback),
    - [app/api/videos.py]              (script cache and render orchestrator).

    Python strings are sequences of code points, dictionaries are finite
    maps, [Any] is a universe of JSON-shaped values, and floats are IEEE 754
    binary64 numbers (the primitive floats of the kernel), so that the
    arithmetic of the overlay windows is the arithmetic the interpreter
    performs.  Handlers run in a state-and-exception monad over the three
    module-level stores.  Everything outside the repository (the media
    toolchain, the two network services, [uuid4], the interpreter's [str()]
    on non-string values) is a field of an environment record.

    Creating directories and writing files always succeeds in this model:
    the I/O failure class of the design is outside it. *)

From Stdlib Require Import ZArith NArith Floats Uint63 String Ascii DecimalString.
From stdpp Require Import gmap list.

Open Scope Z_scope.

(** ** Python strings *)

(** A [str] is a sequence of Unicode code points; [len] counts them. *)
Abbreviation pystr := (list N).

(** An ASCII literal of the source, as a [str]. *)
Definition lit (s : string) : pystr := N_of_ascii <$> list_ascii_of_string s.

Arguments lit : simpl never.

Definition py_len (s : pystr) : Z := Z.of_nat (length s).

(** [s[:k]] for a non-negative constant [k]. *)
Definition py_prefix (k : nat) (s : pystr) : pystr := take k s.

(** [s.replace(old, new)] where [old] is a single character. *)
Fixpoint py_replace (old : N) (new : pystr) (s : pystr) : pystr :=
  match s with
  | [] => []
  | c :: rest =>
      (if N.eqb c old then new else [c]) ++ py_replace old new rest
  end.

(** [sep.join(parts)] *)
Fixpoint py_join (sep : pystr) (parts : list pystr) : pystr :=
  match parts with
  | [] => []
  | [p] => p
  | p :: rest => p ++ sep ++ py_join sep rest
  end.

(** [s.endswith(suffix)] *)
Definition py_endswith (suffix s : pystr) : bool :=
  bool_decide (drop (length s - length suffix) s = suffix).

Arguments py_endswith : simpl never.

(** Decimal rendering of the integer constants the source formats. *)
Definition str_of_Z (z : Z) : pystr := lit (NilZero.string_of_int (Z.to_int z)).

Module Chars.
Definition quote : N := 39.      (* ' *)
Definition colon : N := 58.      (* : *)
Definition backslash : N := 92.  (* \ *)
Definition slash : N := 47.      (* / *)
Definition repeat_emoji : N := 128257. (* U+1F501 *)
End Chars.

(** ** Values of type [Any] *)

#[warnings="-register-all"]
Inductive pyval : Type :=
| VNone
| VBool (b : bool)
| VInt (z : Z)
| VFloat (f : float)
| VStr (s : pystr)
| VList (items : list pyval)
| VDict (entries : list (pystr * pyval)).

(** A [Dict[str, Any]]. *)
Abbreviation pydict := (gmap pystr pyval).

(** [d.get(key, default)] *)
Definition dict_get (d : pydict) (key : pystr) (default : pyval) : pyval :=
  match d !! key with
  | Some v => v
  | None => default
  end.

(** Truth value of an object. *)
Definition truthy (v : pyval) : bool :=
  match v with
  | VNone => false
  | VBool b => b
  | VInt z => negb (z =? 0)
  | VFloat f => negb (PrimFloat.eqb f 0%float)
  | VStr s => negb (bool_decide (s = []))
  | VList items => negb (bool_decide (length items = 0%nat))
  | VDict entries => negb (bool_decide (length entries = 0%nat))
  end.

(** Lists and dictionaries are unhashable. *)
Definition hashable (v : pyval) : bool :=
  match v with
  | VList _ | VDict _ => false
  | _ => true
  end.

(** ** Exceptions and results *)

Inductive exn : Type :=
| HTTPException (status_code : Z) (detail : pystr)
| TypeError
| AttributeError
| KeyError
| IndexError
| ZeroDivisionError
| FileNotFoundError
| RequestError
| FFmpegError (stderr : pystr).

Inductive result (A : Type) : Type :=
| Ok (a : A)
| Raise (e : exn).
Arguments Ok {A} a.
Arguments Raise {A} e.

Definition rbind {A B} (r : result A) (k : A → result B) : result B :=
  match r with
  | Ok a => k a
  | Raise e => Raise e
  end.

(** ** Overlay escaping ([_build_text_filter], the [escaped_line] line) *)

(** ['\''] *)
Definition quote_escape : pystr :=
  [Chars.quote; Chars.backslash; Chars.quote; Chars.quote].
(** [\:] *)
Definition colon_escape : pystr := [Chars.backslash; Chars.colon].

(** [line.replace("'", "'\\''").replace(":", "\\:")] *)
Definition escape_line (line : pystr) : pystr :=
  py_replace Chars.colon colon_escape
    (py_replace Chars.quote quote_escape line).

(** The inverse of the colon pass: the backslash before a colon goes. *)
Fixpoint unescape_colons (s : pystr) : pystr :=
  match s with
  | [] => []
  | c :: rest =>
      match rest with
      | d :: rest' =>
          if N.eqb c Chars.backslash && N.eqb d Chars.colon
          then Chars.colon :: unescape_colons rest'
          else c :: unescape_colons rest
      | [] => [c]
      end
  end.

(** The inverse of the quote pass: each ['\''] block becomes one quote. *)
Fixpoint unescape_quotes (s : pystr) : pystr :=
  match s with
  | [] => []
  | c :: rest =>
      if N.eqb c Chars.quote
      then match rest with
           | _ :: _ :: _ :: rest' => Chars.quote :: unescape_quotes rest'
           | _ => [c]
           end
      else c :: unescape_quotes rest
  end.

Definition unescape_line (s : pystr) : pystr :=
  unescape_quotes (unescape_colons s).


(** ** The environment: everything that is not code of the repository *)

(** What [subprocess.run] can do: the process ran and exited, or the
    executable was not found. *)
Inductive completed : Type :=
| CompletedProcess (returncode : Z) (stderr : pystr)
| NotInstalled.

(** What the speech provider's HTTP endpoint can do. *)
Inductive http_response : Type :=
| Response (status_code : Z) (content : list Byte.byte)
| RequestFailed.

Record Env : Type := {
  (** [str(v)] as used by f-strings, for a [v] that is not a [str] *)
  str_of_object : pyval → pystr;
  (** [str(x)] of a float *)
  str_of_float : float → pystr;
  (** the sequence of identifiers [uuid.uuid4()] hands out *)
  uuid4_stream : nat → pystr;
  (** [Path(FFMPEG_PATH).exists()] when the service object is built *)
  ffmpeg_full_exists : bool;
  (** [subprocess.run(cmd)], the n-th invocation *)
  subprocess_run : list pystr → nat → completed;
  ELEVENLABS_API_KEY : pystr;
  GOOGLE_API_KEY : pystr;
  (** whether [genai.Client(...)] can be constructed *)
  genai_client_ok : bool;
  (** the n-th call of the model for (fact, vibe): the JSON object found in
      its answer, or nothing when the call or the parse fails *)
  gemini_script : pystr → option pystr → nat → option pydict;
  (** [client.post] to the text-to-speech endpoint for (voice id, text) *)
  elevenlabs_post : pystr → pystr → nat → http_response;
}.

(** [str(v)] / [format(v)] *)
Definition py_str (env : Env) (v : pyval) : pystr :=
  match v with
  | VStr s => s
  | _ => str_of_object env v
  end.

(** ** Overlay timing engine ([VideoService._build_text_filter]) *)

Definition float_of_Z (z : Z) : float := PrimFloat.of_uint63 (Uint63.of_Z z).
Definition float_of_nat (n : nat) : float := float_of_Z (Z.of_nat n).

(** [a / b] on two ints (exact conversion: both are small and not
    negative here). *)
Definition py_truediv (a b : Z) : result float :=
  if b =? 0 then Raise ZeroDivisionError
  else Ok (PrimFloat.div (float_of_Z a) (float_of_Z b)).

Record TextCue : Type := {
  cue_text : pystr;      (* escaped_line *)
  font_size : Z;
  start_time : float;
  end_time : float;
}.

(** [72 if len(line) < 30 else 56 if len(line) < 50 else 48] *)
Definition font_size_of (line : pystr) : Z :=
  if py_len line <? 30 then 72 else if py_len line <? 50 then 56 else 48.

(** One iteration of the loop over [enumerate(text_lines)]. *)
Definition text_cue (line_duration : float) (i : nat) (line : pyval)
  : result TextCue :=
  let start_time := PrimFloat.mul (float_of_nat i) line_duration in
  let end_time := PrimFloat.mul (float_of_nat (i + 1)) line_duration in
  match line with
  | VStr s =>
      Ok {| cue_text := escape_line s; font_size := font_size_of s;
            start_time := start_time; end_time := end_time |}
  | _ => Raise AttributeError   (* no [replace] on a non-string *)
  end.

Fixpoint text_cues_from (line_duration : float) (i : nat)
    (text_lines : list pyval) : result (list TextCue) :=
  match text_lines with
  | [] => Ok []
  | line :: rest =>
      rbind (text_cue line_duration i line) (λ c,
      rbind (text_cues_from line_duration (S i) rest) (λ cs,
      Ok (c :: cs)))
  end.

(** The cues of [_build_text_filter], before they are printed. *)
Definition build_cues (text_lines : list pyval) (duration : Z)
  : result (list TextCue) :=
  rbind (py_truediv duration (Z.of_nat (length text_lines))) (λ line_duration,
  text_cues_from line_duration 0 text_lines).

(** One [drawtext=...] filter. *)
Definition drawtext (env : Env) (c : TextCue) : pystr :=
  lit "drawtext=text='" ++ cue_text c ++ lit "':" ++
  lit "fontsize=" ++ str_of_Z (font_size c) ++ lit ":" ++
  lit "fontcolor=white:" ++
  lit "fontfile=/System/Library/Fonts/Helvetica.ttc:" ++
  lit "x=(w-text_w)/2:" ++
  lit "y=(h-text_h)/2:" ++
  lit "enable='between(t," ++ str_of_float env (start_time c) ++ lit "," ++
    str_of_float env (end_time c) ++ lit ")':" ++
  lit "shadowcolor=black@0.5:" ++
  lit "shadowx=2:shadowy=2".

Definition _build_text_filter (env : Env) (text_lines : list pyval)
    (duration : Z) : result pystr :=
  rbind (build_cues text_lines duration) (λ cues,
  Ok (py_join (lit ",") (drawtext env <$> cues))).

(** ** Records of the stores *)

Module Fact.
(** An entry of [extracted_facts]; the pipeline reads its text (a [str],
    as [generate_video_script] declares) and its review status. *)
Record t : Type := { fact : pystr; srs_status : pystr }.
End Fact.

Module Video.
Record t : Type := {
  id : pystr;
  fact_id : pystr;
  script : pydict;
  srs_status : pystr;
  loop_count : Z;
  vibe : option pystr;
  render_status : pystr;
  ai_available : bool;
}.
End Video.

Module RenderResult.
(** The result dictionary of [render_video]; a key that is not set is
    [None] here. *)
Record t : Type := {
  render_id : pystr;
  video_id : pystr;
  status : pystr;
  services : bool * bool;         (* ffmpeg, tts *)
  narration_text : pystr;
  audio_generated : option bool;
  audio_path : option pystr;
  video_path : option pystr;
  message : option pystr;
}.
End RenderResult.

Module VideoGenerateRequest.
Record t : Type := { fact_id : pystr; vibe : option pystr }.
End VideoGenerateRequest.

Module VideoRenderRequest.
Record t : Type := {
  video_id : pystr;
  include_audio : option bool;
  mascot_voice : option pystr;
}.
End VideoRenderRequest.

(** What a path of the file system holds. *)
Inductive filedata : Type :=
| AudioFile (content : list Byte.byte)
| PlaceholderFile (status message : pystr) (script : pydict)
    (output_name : pystr)
| OtherFile.

(** ** Process state *)

Record State : Type := {
  extracted_facts : gmap pystr Fact.t;
  generated_videos : gmap pystr Video.t;
  rendered_videos : gmap pystr RenderResult.t;
  (** [VideoService._ffmpeg_available], the memo of the probe *)
  _ffmpeg_available : option bool;
  files : gmap pystr filedata;
  (** how many identifiers [uuid4] has handed out *)
  uuid_count : nat;
  (** instrumentation: the calls of [generate_video_script], of the speech
      endpoint, and of [subprocess.run], latest first *)
  script_calls : list (pystr * option pystr);
  tts_calls : list (pystr * pystr);
  subprocess_calls : list (list pystr);
}.

Definition set_generated_videos (f : gmap pystr Video.t → gmap pystr Video.t)
    (st : State) : State :=
  {| extracted_facts := extracted_facts st;
     generated_videos := f (generated_videos st);
     rendered_videos := rendered_videos st;
     _ffmpeg_available := _ffmpeg_available st;
     files := files st; uuid_count := uuid_count st;
     script_calls := script_calls st; tts_calls := tts_calls st;
     subprocess_calls := subprocess_calls st |}.

Definition set_rendered_videos
    (f : gmap pystr RenderResult.t → gmap pystr RenderResult.t)
    (st : State) : State :=
  {| extracted_facts := extracted_facts st;
     generated_videos := generated_videos st;
     rendered_videos := f (rendered_videos st);
     _ffmpeg_available := _ffmpeg_available st;
     files := files st; uuid_count := uuid_count st;
     script_calls := script_calls st; tts_calls := tts_calls st;
     subprocess_calls := subprocess_calls st |}.

Definition set_ffmpeg_available (b : option bool) (st : State) : State :=
  {| extracted_facts := extracted_facts st;
     generated_videos := generated_videos st;
     rendered_videos := rendered_videos st;
     _ffmpeg_available := b;
     files := files st; uuid_count := uuid_count st;
     script_calls := script_calls st; tts_calls := tts_calls st;
     subprocess_calls := subprocess_calls st |}.

Definition set_files (f : gmap pystr filedata → gmap pystr filedata)
    (st : State) : State :=
  {| extracted_facts := extracted_facts st;
     generated_videos := generated_videos st;
     rendered_videos := rendered_videos st;
     _ffmpeg_available := _ffmpeg_available st;
     files := f (files st); uuid_count := uuid_count st;
     script_calls := script_calls st; tts_calls := tts_calls st;
     subprocess_calls := subprocess_calls st |}.

Definition set_uuid_count (n : nat) (st : State) : State :=
  {| extracted_facts := extracted_facts st;
     generated_videos := generated_videos st;
     rendered_videos := rendered_videos st;
     _ffmpeg_available := _ffmpeg_available st;
     files := files st; uuid_count := n;
     script_calls := script_calls st; tts_calls := tts_calls st;
     subprocess_calls := subprocess_calls st |}.

Definition log_script_call (c : pystr * option pystr) (st : State) : State :=
  {| extracted_facts := extracted_facts st;
     generated_videos := generated_videos st;
     rendered_videos := rendered_videos st;
     _ffmpeg_available := _ffmpeg_available st;
     files := files st; uuid_count := uuid_count st;
     script_calls := c :: script_calls st; tts_calls := tts_calls st;
     subprocess_calls := subprocess_calls st |}.

Definition log_tts_call (c : pystr * pystr) (st : State) : State :=
  {| extracted_facts := extracted_facts st;
     generated_videos := generated_videos st;
     rendered_videos := rendered_videos st;
     _ffmpeg_available := _ffmpeg_available st;
     files := files st; uuid_count := uuid_count st;
     script_calls := script_calls st; tts_calls := c :: tts_calls st;
     subprocess_calls := subprocess_calls st |}.

Definition log_subprocess_call (cmd : list pystr) (st : State) : State :=
  {| extracted_facts := extracted_facts st;
     generated_videos := generated_videos st;
     rendered_videos := rendered_videos st;
     _ffmpeg_available := _ffmpeg_available st;
     files := files st; uuid_count := uuid_count st;
     script_calls := script_calls st; tts_calls := tts_calls st;
     subprocess_calls := cmd :: subprocess_calls st |}.

(** ** The monad of handlers: state, and a result or a raised exception *)

Definition M (A : Type) : Type := State → result A * State.

Definition ret {A} (a : A) : M A := λ st, (Ok a, st).
Definition raise {A} (e : exn) : M A := λ st, (Raise e, st).
Definition bind {A B} (m : M A) (k : A → M B) : M B :=
  λ st, match m st with
        | (Ok a, st') => k a st'
        | (Raise e, st') => (Raise e, st')
        end.
Definition lift {A} (r : result A) : M A := λ st, (r, st).
Definition get_state : M State := λ st, (Ok st, st).
Definition modify (f : State → State) : M unit := λ st, (Ok tt, f st).
(** [try: m  except Exception: handler] *)
Definition try_except {A} (m : M A) (handler : exn → M A) : M A :=
  λ st, match m st with
        | (Ok a, st') => (Ok a, st')
        | (Raise e, st') => handler e st'
        end.

Notation "'let!' x ':=' m 'in' k" := (bind m (λ x, k))
  (at level 10, x name, m at level 100, k at level 200,
   format "'[v' 'let!'  x  ':='  m  'in' '/' k ']'").
Notation "'run!' m 'in' k" := (bind m (λ _, k))
  (at level 10, m at level 100, k at level 200,
   format "'[v' 'run!'  m  'in' '/' k ']'").

(** [uuid.uuid4()], as a string. *)
Definition uuid4 (env : Env) : M pystr :=
  λ st, (Ok (uuid4_stream env (uuid_count st)),
         set_uuid_count (S (uuid_count st)) st).

(** [subprocess.run(cmd, ...)] *)
Definition run_subprocess (env : Env) (cmd : list pystr) : M completed :=
  λ st, (Ok (subprocess_run env cmd (length (subprocess_calls st))),
         log_subprocess_call cmd st).

(** [os.path.exists(path)] *)
Definition path_exists (path : pystr) : M bool :=
  λ st, (Ok (bool_decide (is_Some (files st !! path))), st).

Definition write_file (path : pystr) (data : filedata) : M unit :=
  modify (set_files (insert path data)).

(** ** Script generation ([AIService], imported as [claude_service]) *)

Module AIService.
(** The [client] property is truthy. *)
Definition client (env : Env) : bool :=
  negb (bool_decide (GOOGLE_API_KEY env = [])) && genai_client_ok env.

Definition is_available (env : Env) : bool :=
  negb (bool_decide (GOOGLE_API_KEY env = [])).

Definition mascot_cue (timestamp character action : string) : pyval :=
  VDict [(lit "timestamp", VStr (lit timestamp));
         (lit "character", VStr (lit character));
         (lit "action", VStr (lit action))].

Definition _mock_generate_script (fact : pystr) (vibe : option pystr)
  : pydict :=
  list_to_map
    [(lit "hook", VStr (lit "Okay but like..."));
     (lit "body",
      VList [VStr (py_prefix 40 fact ++ lit "...");
             VStr (lit "This is actually SO important");
             VStr (lit "Remember this fr fr")]);
     (lit "repeat_phrase", VStr (py_prefix 35 fact));
     (lit "mascot_cues",
      VList [mascot_cue "0:05" "penguin" "directing";
             mascot_cue "0:10" "seal" "clapping"]);
     (lit "bg_suggestion", VStr (lit "subway_surfers"));
     (lit "audio_vibe", VStr (lit "phonk"))].

(** Every call is logged; without a client, or when the model call, the
    search for a JSON object or its parse fails, the mock script is the
    answer. *)
Definition generate_video_script (env : Env) (fact : pystr)
    (vibe : option pystr) : M pydict :=
  let! st := get_state in
  run! modify (log_script_call (fact, vibe)) in
  if negb (client env) then ret (_mock_generate_script fact vibe)
  else
    match gemini_script env fact vibe (length (script_calls st)) with
    | Some script_data => ret script_data
    | None => ret (_mock_generate_script fact vibe)
    end.
End AIService.

(** ** Narration synthesizer adapter ([TTSService]) *)

Module TTSService.
Definition VOICES : list (pystr * pystr) :=
  [(lit "seal", lit "EXAVITQu4vr4xnSDxMaL");
   (lit "penguin", lit "pNInz6obpgDQGcFmaJgB")].

Definition is_available (env : Env) : bool :=
  negb (bool_decide (ELEVENLABS_API_KEY env = [])).

(** [self.VOICES.get(voice, self.VOICES["seal"])] *)
Definition voice_id_of (voice : option pystr) : pystr :=
  match voice with
  | Some v =>
      match list_find (λ kv, kv.1 = v) VOICES with
      | Some (_, kv) => kv.2
      | None => lit "EXAVITQu4vr4xnSDxMaL"
      end
  | None => lit "EXAVITQu4vr4xnSDxMaL"
  end.

(** The text handed to the provider:
    [if len(text) > 5000: text = text[:5000]] *)
Definition submitted_text (text : pystr) : pystr :=
  if 5000 <? py_len text then py_prefix 5000 text else text.

(** [if output_path:] *)
Definition path_given (output_path : option pystr) : option pystr :=
  match output_path with
  | Some (c :: p) => Some (c :: p)
  | _ => None
  end.

Arguments path_given : simpl never.

Definition text_to_speech (env : Env) (text : pystr) (voice : option pystr)
    (output_path : option pystr) : M (option (list Byte.byte)) :=
  if negb (is_available env) then ret None
  else
    let text := submitted_text text in
    let voice_id := voice_id_of voice in
    try_except
      (let! st := get_state in
       run! modify (log_tts_call (voice_id, text)) in
       match elevenlabs_post env voice_id text (length (tts_calls st)) with
       | Response status_code audio_bytes =>
           if status_code =? 200 then
             match path_given output_path with
             | Some path =>
                 (* [os.makedirs(os.path.dirname(path))] raises on an
                    empty directory name *)
                 if bool_decide (Chars.slash ∈ path) then
                   run! write_file path (AudioFile audio_bytes) in
                   ret (Some audio_bytes)
                 else raise FileNotFoundError
             | None => ret (Some audio_bytes)
             end
           else ret None
       | RequestFailed => raise RequestError
       end)
      (λ _, ret None).
End TTSService.

(** ** Video assembler ([VideoService]) *)

Module VideoService.
Definition WIDTH : Z := 1080.
Definition HEIGHT : Z := 1920.
Definition FPS : Z := 30.

Definition BG_VIDEOS : list (pystr * pystr) :=
  [(lit "subway_surfers", lit "subway_surfers.mp4");
   (lit "minecraft", lit "minecraft_parkour.mp4");
   (lit "satisfying", lit "satisfying.mp4");
   (lit "soap_cutting", lit "soap_cutting.mp4")].

(** [FFMPEG_PATH] after [__init__] *)
Definition FFMPEG_PATH (env : Env) : pystr :=
  if ffmpeg_full_exists env
  then lit "/opt/homebrew/opt/ffmpeg-full/bin/ffmpeg"
  else lit "ffmpeg".

Definition output_dir : pystr := lit "data/videos".
Definition assets_dir : pystr := lit "data/assets".

(** [dir / name], for a relative [name]. *)
Definition path_join (dir name : pystr) : pystr :=
  dir ++ [Chars.slash] ++ name.

(** The [is_available] property: the probe runs once, its answer is
    kept in [_ffmpeg_available]. *)
Definition is_available (env : Env) : M bool :=
  let! st := get_state in
  match _ffmpeg_available st with
  | Some b => ret b
  | None =>
      let! result := run_subprocess env [FFMPEG_PATH env; lit "-version"] in
      let b := match result with
               | CompletedProcess returncode _ => returncode =? 0
               | NotInstalled => false
               end in
      run! modify (set_ffmpeg_available (Some b)) in
      ret b
  end.

(** [body[0] if body else ""] *)
Definition first_or_empty (body : pyval) : result pyval :=
  if truthy body then
    match body with
    | VList (x :: _) => Ok x
    | VList [] => Raise IndexError
    | VStr (c :: _) => Ok (VStr [c])
    | VStr [] => Raise IndexError
    | VDict _ => Raise KeyError
    | _ => Raise TypeError
    end
  else Ok (VStr []).

(** [[hook] + body + [f"\U0001F501 {repeat_phrase}"]] *)
Definition text_lines_of (env : Env) (hook body repeat_phrase : pyval)
  : result (list pyval) :=
  match body with
  | VList items =>
      Ok ([hook] ++ items ++
          [VStr ([Chars.repeat_emoji; 32%N] ++ py_str env repeat_phrase)])
  | _ => Raise TypeError
  end.

(** [self.BG_VIDEOS.get(bg_type, "subway_surfers.mp4")] *)
Definition bg_video_of (bg_type : pyval) : result pystr :=
  if negb (hashable bg_type) then Raise TypeError
  else
    match bg_type with
    | VStr name =>
        match list_find (λ kv, kv.1 = name) BG_VIDEOS with
        | Some (_, kv) => Ok kv.2
        | None => Ok (lit "subway_surfers.mp4")
        end
    | _ => Ok (lit "subway_surfers.mp4")   (* no key is equal to it *)
    end.

(** The arguments that select the input of stream 0. *)
Definition background_args (bg_exists : bool) (bg_path : pystr)
    (duration : Z) : list pystr :=
  if bg_exists then
    [lit "-stream_loop"; lit "-1"; lit "-i"; bg_path;
     lit "-t"; str_of_Z duration]
  else
    [lit "-f"; lit "lavfi"; lit "-i";
     lit "color=c=0x667eea:s=" ++ str_of_Z WIDTH ++ lit "x" ++
       str_of_Z HEIGHT ++ lit ":d=" ++ str_of_Z duration].

(** The arguments after the inputs. *)
Definition output_args (audio : option pystr) (text_filter : pystr)
    (output_path : pystr) : list pystr :=
  match audio with
  | Some audio_path =>
      [lit "-i"; audio_path] ++
      [lit "-vf"; text_filter; lit "-map"; lit "0:v"; lit "-map"; lit "1:a";
       lit "-shortest"; lit "-c:v"; lit "libx264"; lit "-preset"; lit "fast";
       lit "-crf"; lit "23"; lit "-c:a"; lit "aac"; lit "-b:a"; lit "128k";
       output_path]
  | None =>
      [lit "-vf"; text_filter; lit "-c:v"; lit "libx264"; lit "-preset";
       lit "fast"; lit "-crf"; lit "23"; output_path]
  end.

(** The command of [_assemble_video], or the exception raised while it
    is put together. *)
Definition assemble_command (env : Env) (script : pydict)
    (audio_path : option pystr) (output_path : pystr) : M (list pystr) :=
  let hook := dict_get script (lit "hook") (VStr (lit "Did you know?")) in
  let body := dict_get script (lit "body")
                (VList [VStr (lit "Learning content here")]) in
  let! default_phrase := lift (first_or_empty body) in
  let repeat_phrase := dict_get script (lit "repeat_phrase") default_phrase in
  let bg_type := dict_get script (lit "bg_suggestion")
                   (VStr (lit "subway_surfers")) in
  let duration := 15 in
  let! text_lines := lift (text_lines_of env hook body repeat_phrase) in
  let! text_filter := lift (_build_text_filter env text_lines duration) in
  let! bg_video := lift (bg_video_of bg_type) in
  let bg_path := path_join (path_join assets_dir (lit "backgrounds")) bg_video in
  let cmd := [FFMPEG_PATH env; lit "-y"] in
  let! bg_exists := path_exists bg_path in
  let cmd := cmd ++ background_args bg_exists bg_path duration in
  let! audio :=
    match audio_path with
    | Some (c :: p) =>
        let! audio_exists := path_exists (c :: p) in
        ret (if audio_exists then Some (c :: p) else None)
    | _ => ret None
    end in
  ret (cmd ++ output_args audio text_filter output_path).

Definition _assemble_video (env : Env) (script : pydict)
    (audio_path : option pystr) (output_path : pystr) : M unit :=
  let! cmd := assemble_command env script audio_path output_path in
  let! result := run_subprocess env cmd in
  match result with
  | CompletedProcess returncode stderr =>
      if negb (returncode =? 0) then raise (FFmpegError stderr) else ret tt
  | NotInstalled => raise FileNotFoundError
  end.

Definition _create_placeholder_video (script : pydict) (output_name : pystr)
  : M pystr :=
  let output_path := path_join output_dir (output_name ++ lit "_pending.json") in
  run! write_file output_path
         (PlaceholderFile (lit "pending")
            (lit "Video generation requires FFmpeg. Install with: brew install ffmpeg")
            script output_name) in
  ret output_path.

(** Declared [Optional[str]]. *)
Definition create_video (env : Env) (script : pydict)
    (audio_path : option pystr) (output_name : pystr) : M (option pystr) :=
  let! available := is_available env in
  if negb available then
    let! p := _create_placeholder_video script output_name in
    ret (Some p)
  else
    let output_path := path_join output_dir (output_name ++ lit ".mp4") in
    try_except
      (run! _assemble_video env script audio_path output_path in
       ret (Some output_path))
      (λ e,
       let! p := _create_placeholder_video script output_name in
       ret (Some p)).
End VideoService.

(** ** Script cache and render orchestrator ([app/api/videos.py]) *)

(** [f"{x}"] for an [Optional[str]] *)
Definition str_of_optional (o : option pystr) : pystr :=
  match o with
  | Some s => s
  | None => lit "None"
  end.

(** [f"{request.fact_id}_{request.vibe}"] *)
Definition cache_key_of (fact_id : pystr) (vibe : option pystr) : pystr :=
  fact_id ++ lit "_" ++ str_of_optional vibe.

(** The [script] dictionary [generate_video] builds from the generator's
    answer. *)
Definition script_of (video_id fact_id fact : pystr) (script_data : pydict)
  : pydict :=
  list_to_map
    [(lit "id", VStr video_id);
     (lit "fact_id", VStr fact_id);
     (lit "hook", dict_get script_data (lit "hook") (VStr (lit "Okay but like...")));
     (lit "body", dict_get script_data (lit "body") (VList [VStr fact]));
     (lit "repeat_phrase",
      dict_get script_data (lit "repeat_phrase") (VStr (py_prefix 40 fact)));
     (lit "mascot_cues", dict_get script_data (lit "mascot_cues") (VList []));
     (lit "background",
      dict_get script_data (lit "bg_suggestion") (VStr (lit "subway_surfers")));
     (lit "audio_vibe", dict_get script_data (lit "audio_vibe") (VStr (lit "phonk")));
     (lit "duration_seconds", VInt 15)].

Definition generate_video (env : Env) (request : VideoGenerateRequest.t)
  : M Video.t :=
  let fact_id := VideoGenerateRequest.fact_id request in
  let vibe := VideoGenerateRequest.vibe request in
  let! st := get_state in
  match extracted_facts st !! fact_id with
  | None => raise (HTTPException 404 (lit "Fact not found"))
  | Some fact =>
      let cache_key := cache_key_of fact_id vibe in
      match generated_videos st !! cache_key with
      | Some video => ret video
      | None =>
          let! script_data :=
            AIService.generate_video_script env (Fact.fact fact) vibe in
          let! video_id := uuid4 env in
          let video :=
            {| Video.id := video_id;
               Video.fact_id := fact_id;
               Video.script := script_of video_id fact_id (Fact.fact fact) script_data;
               Video.srs_status := Fact.srs_status fact;
               Video.loop_count := 0;
               Video.vibe := vibe;
               Video.render_status := lit "pending";
               Video.ai_available := AIService.is_available env |} in
          run! modify (set_generated_videos (insert cache_key video)) in
          run! modify (set_generated_videos (insert video_id video)) in
          ret video
      end
  end.

(** [sep.join(v)]: the items of a list must be strings, a string yields
    its characters, a dictionary its keys. *)
Fixpoint all_strings (items : list pyval) : result (list pystr) :=
  match items with
  | [] => Ok []
  | VStr s :: rest => rbind (all_strings rest) (λ ss, Ok (s :: ss))
  | _ :: _ => Raise TypeError
  end.

Definition join_object (sep : pystr) (v : pyval) : result pystr :=
  match v with
  | VList items => rbind (all_strings items) (λ ss, Ok (py_join sep ss))
  | VStr s => Ok (py_join sep ((λ c, [c]) <$> s))
  | VDict entries => Ok (py_join sep (fst <$> entries))
  | _ => Raise TypeError
  end.

(** The narration text of [render_video]. *)
Definition narration_of (env : Env) (script : pydict) : result pystr :=
  rbind (join_object (lit " ") (dict_get script (lit "body") (VList []))) (λ body_text,
  Ok (py_str env (dict_get script (lit "hook") (VStr [])) ++ lit "... " ++
      body_text ++ lit ". Remember: " ++
      py_str env (dict_get script (lit "repeat_phrase") (VStr [])) ++ lit "!")).

(** [narration[:200] + "..." if len(narration) > 200 else narration] *)
Definition narration_preview (narration : pystr) : pystr :=
  if 200 <? py_len narration then py_prefix 200 narration ++ lit "..."
  else narration.

(** [request.include_audio and tts_service.is_available] *)
Definition wants_audio (env : Env) (request : VideoRenderRequest.t) : bool :=
  match VideoRenderRequest.include_audio request with
  | Some true => TTSService.is_available env
  | _ => false
  end.

(** [if audio_bytes:] *)
Definition bytes_truthy (audio_bytes : option (list Byte.byte)) : bool :=
  match audio_bytes with
  | Some (_ :: _) => true
  | _ => false
  end.

(** [f"data/audio/{render_id}.mp3"] *)
Definition audio_path_of (render_id : pystr) : pystr :=
  lit "data/audio/" ++ render_id ++ lit ".mp3".

(** The branch [if video_service.is_available:] of [render_video]: the
    narration first, then the video.  [audio_path] is set before the
    synthesis is tried and is handed to [create_video] whatever comes of
    it; the result records it only when audio bytes came back. *)
Definition render_with_ffmpeg (env : Env) (request : VideoRenderRequest.t)
    (script : pydict) (narration : pystr) (result : RenderResult.t)
  : M RenderResult.t :=
  let render_id := RenderResult.render_id result in
  let! audio :=
    if wants_audio env request then
      let audio_path := audio_path_of render_id in
      let! audio_bytes :=
        TTSService.text_to_speech env narration
          (VideoRenderRequest.mascot_voice request) (Some audio_path) in
      ret (Some audio_path, Some (bytes_truthy audio_bytes))
    else ret (None, None) in
  let audio_path : option pystr := audio.1 in
  let generated : option bool := audio.2 in
  let! video_path :=
    VideoService.create_video env script audio_path render_id in
  match video_path with
  | None => raise AttributeError   (* [None.endswith] *)
  | Some path =>
      ret {| RenderResult.render_id := render_id;
             RenderResult.video_id := RenderResult.video_id result;
             RenderResult.status :=
               if py_endswith (lit ".mp4") path then lit "complete"
               else lit "pending_ffmpeg";
             RenderResult.services := RenderResult.services result;
             RenderResult.narration_text := RenderResult.narration_text result;
             RenderResult.audio_generated := generated;
             RenderResult.audio_path :=
               if generated is Some true then audio_path else None;
             RenderResult.video_path := Some path;
             RenderResult.message := RenderResult.message result |}
  end.

Arguments audio_path_of : simpl never.

(** The [else:] branch: no video is attempted, the narration still is. *)
Definition render_without_ffmpeg (env : Env) (request : VideoRenderRequest.t)
    (narration : pystr) (result : RenderResult.t) : M RenderResult.t :=
  let render_id := RenderResult.render_id result in
  let! audio :=
    if wants_audio env request then
      let audio_path := audio_path_of render_id in
      let! audio_bytes :=
        TTSService.text_to_speech env narration
          (VideoRenderRequest.mascot_voice request) (Some audio_path) in
      ret (if bytes_truthy audio_bytes
           then (Some true, Some audio_path) else (None, None))
    else ret (None, None) in
  ret {| RenderResult.render_id := render_id;
         RenderResult.video_id := RenderResult.video_id result;
         RenderResult.status := lit "pending_ffmpeg";
         RenderResult.services := RenderResult.services result;
         RenderResult.narration_text := RenderResult.narration_text result;
         RenderResult.audio_generated := audio.1;
         RenderResult.audio_path := audio.2;
         RenderResult.video_path := RenderResult.video_path result;
         RenderResult.message :=
           Some (lit "Install FFmpeg: brew install ffmpeg") |}.

Definition render_video (env : Env) (request : VideoRenderRequest.t)
  : M RenderResult.t :=
  let video_id := VideoRenderRequest.video_id request in
  let! st := get_state in
  match generated_videos st !! video_id with
  | None => raise (HTTPException 404 (lit "Video not found. Generate first."))
  | Some video =>
      let script := Video.script video in
      let! ffmpeg := VideoService.is_available env in
      let services_status := (ffmpeg, TTSService.is_available env) in
      let! render_id := uuid4 env in
      let! narration := lift (narration_of env script) in
      let result :=
        {| RenderResult.render_id := render_id;
           RenderResult.video_id := video_id;
           RenderResult.status := lit "processing";
           RenderResult.services := services_status;
           RenderResult.narration_text := narration_preview narration;
           RenderResult.audio_generated := None;
           RenderResult.audio_path := None;
           RenderResult.video_path := None;
           RenderResult.message := None |} in
      let! available := VideoService.is_available env in
      let! result :=
        if available
        then render_with_ffmpeg env request script narration result
        else render_without_ffmpeg env request narration result in
      run! modify (set_rendered_videos (insert render_id result)) in
      ret result
  end.

(** [GET /{video_id}] *)
Definition get_video (video_id : pystr) : M Video.t :=
  let! st := get_state in
  match generated_videos st !! video_id with
  | None => raise (HTTPException 404 (lit "Video not found"))
  | Some video => ret video
  end.

(** ** Download endpoints ([app/api/videos.py]) *)

Module FileResponse.
Record t : Type := { path : pystr; media_type : pystr; filename : pystr }.
End FileResponse.

(** [GET /render/{render_id}/download] *)
Definition download_rendered_video (render_id : pystr) : M FileResponse.t :=
  let! st := get_state in
  match rendered_videos st !! render_id with
  | None => raise (HTTPException 404 (lit "Render not found"))
  | Some render =>
      match RenderResult.video_path render with
      | Some (c :: p) =>
          let! file_exists := path_exists (c :: p) in
          if file_exists then
            ret {| FileResponse.path := c :: p;
                   FileResponse.media_type := lit "video/mp4";
                   FileResponse.filename :=
                     lit "dewi_video_" ++ py_prefix 8 render_id ++ lit ".mp4" |}
          else raise (HTTPException 404 (lit "Video file not ready"))
      | _ => raise (HTTPException 404 (lit "Video file not ready"))
      end
  end.

(** [GET /render/{render_id}/audio] *)
Definition download_audio (render_id : pystr) : M FileResponse.t :=
  let! st := get_state in
  match rendered_videos st !! render_id with
  | None => raise (HTTPException 404 (lit "Render not found"))
  | Some render =>
      match RenderResult.audio_path render with
      | Some (c :: p) =>
          let! file_exists := path_exists (c :: p) in
          if file_exists then
            ret {| FileResponse.path := c :: p;
                   FileResponse.media_type := lit "audio/mpeg";
                   FileResponse.filename :=
                     lit "dewi_narration_" ++ py_prefix 8 render_id ++ lit ".mp3" |}
          else raise (HTTPException 404 (lit "Audio not generated"))
      | _ => raise (HTTPException 404 (lit "Audio not generated"))
      end
  end.

(** ** Batch generation ([batch_generate_videos]) *)

(** [l[:limit]] for any integer [limit]: a negative one counts from the
    end. *)
Definition py_slice_to {A} (limit : Z) (l : list A) : list A :=
  if 0 <=? limit then take (Z.to_nat limit) l
  else take (length l - Z.to_nat (- limit)) l.

Module BatchEntry.
(** One element of [results]; [error] stands for [str(e)]. *)
Record t : Type := {
  fact_id : pystr;
  video_id : option pystr;
  hook : option pyval;
  status : pystr;
  error : option exn;
}.
End BatchEntry.

Module BatchResult.
Record t : Type := {
  source_id : pystr;
  vibe : pystr;
  generated : Z;
  failed : Z;
  results : list BatchEntry.t;
}.
End BatchResult.

(** The body of the loop: one [generate_video] inside [try], any exception
    turned into a failed entry. *)
Definition batch_entry (env : Env) (vibe fact_id : pystr) : M BatchEntry.t :=
  try_except
    (let! video :=
       generate_video env
         {| VideoGenerateRequest.fact_id := fact_id;
            VideoGenerateRequest.vibe := Some vibe |} in
     match Video.script video !! lit "hook" with
     | None => raise KeyError
     | Some hook =>
         ret {| BatchEntry.fact_id := fact_id;
                BatchEntry.video_id := Some (Video.id video);
                BatchEntry.hook := Some hook;
                BatchEntry.status := lit "success";
                BatchEntry.error := None |}
     end)
    (λ e,
     ret {| BatchEntry.fact_id := fact_id;
            BatchEntry.video_id := None;
            BatchEntry.hook := None;
            BatchEntry.status := lit "failed";
            BatchEntry.error := Some e |}).

Fixpoint batch_loop (env : Env) (vibe : pystr) (fact_ids : list pystr)
  : M (list BatchEntry.t) :=
  match fact_ids with
  | [] => ret []
  | fact_id :: rest =>
      let! entry := batch_entry env vibe fact_id in
      let! entries := batch_loop env vibe rest in
      ret (entry :: entries)
  end.

(** [len([r for r in results if r["status"] == status])] *)
Definition count_status (status : pystr) (results : list BatchEntry.t) : Z :=
  Z.of_nat (length (filter (λ r, BatchEntry.status r = status) results)).

(** [ingested_content] is the store of the ingestion module; the handler
    reads the fact ids of a source from it. *)
Definition batch_generate_videos (env : Env)
    (ingested_content : gmap pystr (list pystr))
    (source_id vibe : pystr) (limit : Z) : M BatchResult.t :=
  match ingested_content !! source_id with
  | None => raise (HTTPException 404 (lit "Source not found"))
  | Some content_fact_ids =>
      let fact_ids := py_slice_to limit content_fact_ids in
      let! results := batch_loop env vibe fact_ids in
      ret {| BatchResult.source_id := source_id;
             BatchResult.vibe := vibe;
             BatchResult.generated := count_status (lit "success") results;
             BatchResult.failed := count_status (lit "failed") results;
             BatchResult.results := results |}
  end.

(** ** Runs of the pipeline *)

(** What happens to the stores from outside the pipeline: ingestion and
    gestures rewrite [extracted_facts], files come and go, and other
    modules draw identifiers. *)
Definition external_step (facts : gmap pystr Fact.t)
    (fs : gmap pystr filedata) (drawn : nat) (st : State) : State :=
  {| extracted_facts := facts;
     generated_videos := generated_videos st;
     rendered_videos := rendered_videos st;
     _ffmpeg_available := _ffmpeg_available st;
     files := fs; uuid_count := drawn + uuid_count st;
     script_calls := script_calls st; tts_calls := tts_calls st;
     subprocess_calls := subprocess_calls st |}.

Inductive op : Type :=
| OpGenerate (request : VideoGenerateRequest.t)
| OpRender (request : VideoRenderRequest.t)
| OpGetVideo (video_id : pystr)
| OpExternal (facts : gmap pystr Fact.t) (fs : gmap pystr filedata)
    (drawn : nat).

(** The state a request leaves behind, whether it returns or raises. *)
Definition run_op (env : Env) (o : op) (st : State) : State :=
  match o with
  | OpGenerate request => (generate_video env request st).2
  | OpRender request => (render_video env request st).2
  | OpGetVideo video_id => (get_video video_id st).2
  | OpExternal facts fs drawn => external_step facts fs drawn st
  end.

Definition run_ops (env : Env) (ops : list op) (st : State) : State :=
  fold_left (λ st o, run_op env o st) ops st.

(** A process starts with empty stores and no identifier drawn. *)
Definition initial (st : State) : Prop :=
  generated_videos st = ∅ ∧ rendered_videos st = ∅ ∧ uuid_count st = 0%nat.

Definition reachable (env : Env) (st : State) : Prop :=
  ∃ st0 ops, initial st0 ∧ st = run_ops env ops st0.

(** The (fact id, vibe) keys of the requests of a run that made
    [generate_video] call the script generator, in order. *)
Fixpoint generator_invocations (env : Env) (ops : list op) (st : State)
  : list (pystr * option pystr) :=
  match ops with
  | [] => []
  | o :: rest =>
      let st' := run_op env o st in
      let later := generator_invocations env rest st' in
      match o with
      | OpGenerate request =>
          if bool_decide (script_calls st' = script_calls st) then later
          else (VideoGenerateRequest.fact_id request,
                VideoGenerateRequest.vibe request) :: later
      | _ => later
      end
  end.

(** [uuid4] is taken to hand out pairwise distinct identifiers; an
    identifier is made of hexadecimal digits and hyphens, so it has no
    underscore. *)
Definition uuid4_distinct (env : Env) : Prop :=
  ∀ i j, uuid4_stream env i = uuid4_stream env j → i = j.

Definition uuid4_no_underscore (env : Env) : Prop :=
  ∀ i, 95%N ∉ uuid4_stream env i.

(** ** Vocabulary of the overlay windows *)

(** [duration / len(text_lines)] for the fixed duration of 15 and [n] lines. *)
Definition line_duration_of (n : nat) : float :=
  PrimFloat.div (float_of_Z 15) (float_of_nat n).


(** The cue of line [i] when that line is a string. *)
Definition cue_at (line_duration : float) (i : nat) (s : pystr) : TextCue :=
  {| cue_text := escape_line s; font_size := font_size_of s;
     start_time := PrimFloat.mul (float_of_nat i) line_duration;
     end_time := PrimFloat.mul (float_of_nat (i + 1)) line_duration |}.



(** A script whose text fields have the declared shape: the hook is a
    string and the body a list of strings. *)
Definition text_fields (script : pydict) (hook : pystr) (body : list pystr)
  : Prop :=
  dict_get script (lit "hook") (VStr (lit "Did you know?")) = VStr hook
  ∧ dict_get script (lit "body") (VList [VStr (lit "Learning content here")])
    = VList (VStr <$> body).

(** How often a character occurs in a string. *)
Definition count_char (c : N) (s : pystr) : nat :=
  length (filter (λ x, x = c) s).

(** ** Vocabulary of the state proofs *)

(** What a call of a service leaves alone: the three stores, the
    identifiers drawn and the generator log. *)
Definition frame (st st' : State) : Prop :=
  extracted_facts st' = extracted_facts st
  ∧ generated_videos st' = generated_videos st
  ∧ rendered_videos st' = rendered_videos st
  ∧ uuid_count st' = uuid_count st
  ∧ script_calls st' = script_calls st.

(** What a whole request leaves alone; it may draw identifiers. *)
Definition steady (st st' : State) : Prop :=
  extracted_facts st' = extracted_facts st
  ∧ generated_videos st' = generated_videos st
  ∧ script_calls st' = script_calls st
  ∧ (uuid_count st ≤ uuid_count st')%nat.

(** Whatever the computation does, raising included, the state it leaves
    is related to the one it found. *)
Definition preserves (R : relation State) {A} (m : M A) : Prop :=
  ∀ st, R st (m st).2.

(** The computation returns: it never raises. *)
Definition returns {A} (m : M A) : Prop := ∀ st, ∃ a st', m st = (Ok a, st').

(** The video store is consistent: the record under any key is also the
    record under its own identifier; identifiers of stored videos were
    drawn from [uuid4]; and a key is a cache key (it has an underscore) or
    an identifier that was drawn. *)
Definition store_consistent (env : Env) (st : State) : Prop :=
  ∀ k v, generated_videos st !! k = Some v →
    generated_videos st !! Video.id v = Some v
    ∧ (∃ j, (j < uuid_count st)%nat ∧ Video.id v = uuid4_stream env j)
    ∧ (95%N ∈ k ∨ ∃ j, (j < uuid_count st)%nat ∧ k = uuid4_stream env j).

(** The background asset the assembler falls back to. *)
Definition subway_surfers_path : pystr :=
  VideoService.path_join
    (VideoService.path_join VideoService.assets_dir (lit "backgrounds"))
    (lit "subway_surfers.mp4").

(** The narration input of the command: the path given, when it is not
    empty and the file exists. *)
Definition audio_input (st : State) (audio_path : option pystr)
  : option pystr :=
  match audio_path with
  | Some (c :: p) =>
      if bool_decide (is_Some (files st !! (c :: p))) then Some (c :: p)
      else None
  | _ => None
  end.

(** The answer of the toolchain probe, once known, is still the answer. *)
Definition memo_kept (st st' : State) : Prop :=
  ∀ b, _ffmpeg_available st = Some b → _ffmpeg_available st' = Some b.

(** The file [_create_placeholder_video] writes. *)
Definition placeholder_file (script : pydict) (output_name : pystr)
  : filedata :=
  PlaceholderFile (lit "pending")
    (lit "Video generation requires FFmpeg. Install with: brew install ffmpeg")
    script output_name.

(** The record [render_video] starts from. *)
Definition processing_result (env : Env) (request : VideoRenderRequest.t)
    (render_id narration : pystr) (ffmpeg : bool) : RenderResult.t :=
  {| RenderResult.render_id := render_id;
     RenderResult.video_id := VideoRenderRequest.video_id request;
     RenderResult.status := lit "processing";
     RenderResult.services := (ffmpeg, TTSService.is_available env);
     RenderResult.narration_text := narration_preview narration;
     RenderResult.audio_generated := None;
     RenderResult.audio_path := None;
     RenderResult.video_path := None;
     RenderResult.message := None |}.

(** The two paths [create_video] can return for an output name. *)
Definition media_path (output_name : pystr) : pystr :=
  VideoService.path_join VideoService.output_dir (output_name ++ lit ".mp4").
Definition placeholder_path (output_name : pystr) : pystr :=
  VideoService.path_join VideoService.output_dir
    (output_name ++ lit "_pending.json").
Arguments subway_surfers_path : simpl never.
Arguments media_path : simpl never.
Arguments placeholder_path : simpl never.

(** ** Sample data *)

(** ** Vocabulary of the batch *)

(** The entry the loop appends for the outcome of one [generate_video]. *)
Definition batch_entry_of (fact_id : pystr) (r : result Video.t)
  : BatchEntry.t :=
  match r with
  | Ok video =>
      match Video.script video !! lit "hook" with
      | Some hook =>
          {| BatchEntry.fact_id := fact_id;
             BatchEntry.video_id := Some (Video.id video);
             BatchEntry.hook := Some hook;
             BatchEntry.status := lit "success";
             BatchEntry.error := None |}
      | None =>
          {| BatchEntry.fact_id := fact_id;
             BatchEntry.video_id := None;
             BatchEntry.hook := None;
             BatchEntry.status := lit "failed";
             BatchEntry.error := Some KeyError |}
      end
  | Raise e =>
      {| BatchEntry.fact_id := fact_id;
         BatchEntry.video_id := None;
         BatchEntry.hook := None;
         BatchEntry.status := lit "failed";
         BatchEntry.error := Some e |}
  end.

Definition batch_request (vibe fact_id : pystr) : VideoGenerateRequest.t :=
  {| VideoGenerateRequest.fact_id := fact_id;
     VideoGenerateRequest.vibe := Some vibe |}.

(** What an entry says, against the fact store the batch started from. *)
Definition batch_entry_ok (facts : gmap pystr Fact.t)
    (entry : BatchEntry.t) : Prop :=
  match facts !! BatchEntry.fact_id entry with
  | None =>
      BatchEntry.status entry = lit "failed"
      ∧ BatchEntry.video_id entry = None
      ∧ BatchEntry.error entry
        = Some (HTTPException 404 (lit "Fact not found"))
  | Some _ =>
      (BatchEntry.status entry = lit "success"
       ∧ is_Some (BatchEntry.video_id entry)
       ∧ BatchEntry.error entry = None)
      ∨ (BatchEntry.status entry = lit "failed"
         ∧ BatchEntry.video_id entry = None
         ∧ BatchEntry.error entry = Some KeyError)
  end.


Module Sample.
(** No toolchain, no script model, a speech provider that answers. *)
Definition env : Env :=
  {| str_of_object := λ _, lit "<object>";
     str_of_float := λ _, lit "<float>";
     uuid4_stream := λ n, replicate (S n) 97%N;
     ffmpeg_full_exists := false;
     subprocess_run := λ _ _, NotInstalled;
     ELEVENLABS_API_KEY := lit "key";
     GOOGLE_API_KEY := [];
     genai_client_ok := false;
     gemini_script := λ _ _ _, None;
     elevenlabs_post := λ _ _ _, Response 200 [Byte.x49; Byte.x44; Byte.x33] |}.

(** The toolchain is installed and succeeds. *)
Definition env_ffmpeg : Env :=
  {| str_of_object := λ _, lit "<object>";
     str_of_float := λ _, lit "<float>";
     uuid4_stream := λ n, replicate (S n) 97%N;
     ffmpeg_full_exists := false;
     subprocess_run := λ _ _, CompletedProcess 0 [];
     ELEVENLABS_API_KEY := lit "key";
     GOOGLE_API_KEY := [];
     genai_client_ok := false;
     gemini_script := λ _ _ _, None;
     elevenlabs_post := λ _ _ _, Response 200 [Byte.x49; Byte.x44; Byte.x33] |}.

Definition start : State :=
  {| extracted_facts :=
       {[ lit "f1" := {| Fact.fact := lit "Water boils at 100 C";
                         Fact.srs_status := lit "new" |} ]};
     generated_videos := ∅; rendered_videos := ∅;
     _ffmpeg_available := None; files := ∅; uuid_count := 0;
     script_calls := []; tts_calls := []; subprocess_calls := [] |}.

Definition generate_request : VideoGenerateRequest.t :=
  {| VideoGenerateRequest.fact_id := lit "f1";
     VideoGenerateRequest.vibe := Some (lit "hype") |}.

(** The identifier of the first generated video is the first one drawn. *)
Definition render_request : VideoRenderRequest.t :=
  {| VideoRenderRequest.video_id := [97%N];
     VideoRenderRequest.include_audio := Some true;
     VideoRenderRequest.mascot_voice := Some (lit "seal") |}.

(** The state after the sample script has been generated. *)
Definition generated : State := (generate_video env generate_request start).2.
Definition generated_ffmpeg : State :=
  (generate_video env_ffmpeg generate_request start).2.

(** The script model answers with a JSON object whose body is [null]. *)
Definition env_null_body : Env :=
  {| str_of_object := λ _, lit "<object>";
     str_of_float := λ _, lit "<float>";
     uuid4_stream := λ n, replicate (S n) 97%N;
     ffmpeg_full_exists := false;
     subprocess_run := λ _ _, NotInstalled;
     ELEVENLABS_API_KEY := lit "key";
     GOOGLE_API_KEY := lit "key";
     genai_client_ok := true;
     gemini_script := λ _ _ _,
       Some {[ lit "hook" := VStr (lit "WAIT"); lit "body" := VNone ]};
     elevenlabs_post := λ _ _ _, Response 200 [Byte.x49; Byte.x44; Byte.x33] |}.
Definition generated_null_body : State :=
  (generate_video env_null_body generate_request start).2.

(** The script of the sample video. *)
Definition script : pydict :=
  script_of [97%N] (lit "f1") (lit "Water boils at 100 C")
    (AIService._mock_generate_script (lit "Water boils at 100 C")
       (Some (lit "hype"))).

(** The sample video and the narration of its script. *)
Definition video : Video.t :=
  {| Video.id := [97%N]; Video.fact_id := lit "f1";
     Video.script := script;
     Video.srs_status := lit "new"; Video.loop_count := 0;
     Video.vibe := Some (lit "hype");
     Video.render_status := lit "pending";
     Video.ai_available := false |}.
Definition narration : pystr :=
  lit "Okay but like...... Water boils at 100 C... This is actually SO important Remember this fr fr. Remember: Water boils at 100 C!".
End Sample.

(** ** More sample data *)

Module Sample2.
(** The toolchain answers the probe (the first process run) and fails on
    every later run. *)
Definition env_mux_fails : Env :=
  {| str_of_object := λ _, lit "<object>";
     str_of_float := λ _, lit "<float>";
     uuid4_stream := λ n, replicate (S n) 97%N;
     ffmpeg_full_exists := false;
     subprocess_run := λ _ n,
       match n with
       | O => CompletedProcess 0 []
       | S _ => CompletedProcess 1 (lit "Invalid argument")
       end;
     ELEVENLABS_API_KEY := lit "key";
     GOOGLE_API_KEY := [];
     genai_client_ok := false;
     gemini_script := λ _ _ _, None;
     elevenlabs_post := λ _ _ _, Response 200 [Byte.x49; Byte.x44; Byte.x33] |}.

Definition generated : State :=
  (generate_video env_mux_fails Sample.generate_request Sample.start).2.

(** Two sources of the ingestion store; the second names a fact that was
    never extracted. *)
Definition ingested_content : gmap pystr (list pystr) :=
  {[ lit "s1" := [lit "f1"; lit "f1"]; lit "s2" := [lit "f1"; lit "gone"] ]}.
End Sample2.

(** * Properties *)

(** ** Escaping of overlay lines *)

Section Escaping.

Lemma colon_pass_head (s : pystr) d r :
  py_replace Chars.colon colon_escape s = d :: r → d ≠ Chars.colon.
Proof.
  destruct s as [|c s]; simpl; [discriminate|].
  destruct (N.eqb_spec c Chars.colon) as [->|Hc]; simpl.
  - intros [= <- _]. discriminate.
  - intros [= <- _]. exact Hc.
Qed.

Lemma unescape_colons_cons c d (r : pystr) :
  unescape_colons (c :: d :: r) =
  if N.eqb c Chars.backslash && N.eqb d Chars.colon
  then Chars.colon :: unescape_colons r
  else c :: unescape_colons (d :: r).
Proof. reflexivity. Qed.

Lemma unescape_colons_replace (s : pystr) :
  unescape_colons (py_replace Chars.colon colon_escape s) = s.
Proof.
  induction s as [|c s IH]; [reflexivity|].
  cbn [py_replace].
  destruct (N.eqb_spec c Chars.colon) as [->|Hc].
  - cbn. by rewrite IH.
  - cbn [app]. remember (py_replace Chars.colon colon_escape s) as t eqn:Ht.
    destruct t as [|d r].
    + cbn in IH. by subst s.
    + symmetry in Ht. apply colon_pass_head in Ht.
      rewrite unescape_colons_cons.
      destruct (N.eqb_spec d Chars.colon) as [?|_]; [done|].
      rewrite andb_false_r. by rewrite IH.
Qed.

Lemma unescape_quotes_replace (s : pystr) :
  unescape_quotes (py_replace Chars.quote quote_escape s) = s.
Proof.
  induction s as [|c s IH]; [reflexivity|].
  cbn [py_replace].
  destruct (N.eqb_spec c Chars.quote) as [->|Hc].
  - cbn. by rewrite IH.
  - cbn [app unescape_quotes].
    destruct (N.eqb_spec c Chars.quote) as [?|_]; [done|].
    by rewrite IH.
Qed.

End Escaping.

(** C5. The escaping of an overlay line is lossless: [unescape_line] maps
    the escaped text of every line, whatever quote and colon characters it
    has, back to the line itself. *)
Theorem escape_line_lossless (line : pystr) :
  unescape_line (escape_line line) = line.
Proof.
  unfold unescape_line, escape_line.
  by rewrite unescape_colons_replace, unescape_quotes_replace.
Qed.

(** Two lines with the same escaped text are the same line. *)
Corollary escape_line_injective (a b : pystr) :
  escape_line a = escape_line b → a = b.
Proof.
  intros H. rewrite <- (unescape_colons_replace a), <- (unescape_colons_replace b).
  apply (f_equal unescape_colons) in H. unfold escape_line in H.
  rewrite !unescape_colons_replace in H.
  apply (f_equal unescape_quotes) in H.
  rewrite !unescape_quotes_replace in H. by subst.
Qed.

Example escape_quote_and_colon :
  escape_line (lit "it's 5:30") = lit "it'\''s 5\:30"
  ∧ unescape_line (lit "it'\''s 5\:30") = lit "it's 5:30".
Proof. split; reflexivity. Qed.

(** ** Overlay windows *)

Section Timing.

Lemma text_cues_from_strings line_duration i (lines : list pystr) :
  text_cues_from line_duration i (VStr <$> lines)
  = Ok (imap (λ j, cue_at line_duration (i + j)) lines).
Proof.
  revert i. induction lines as [|s lines IH]; intros i; [reflexivity|].
  cbn [fmap list_fmap text_cues_from text_cue rbind].
  change (list_fmap _ _ VStr lines) with (VStr <$> lines).
  rewrite IH. cbn [rbind imap]. do 2 f_equal.
  - unfold cue_at. by rewrite Nat.add_0_r.
  - apply imap_ext. intros j x _. cbn. f_equal. lia.
Qed.

Lemma build_cues_strings (lines : list pystr) :
  lines ≠ [] →
  build_cues (VStr <$> lines) 15
  = Ok (imap (cue_at (line_duration_of (length lines))) lines).
Proof.
  intros Hne. unfold build_cues, py_truediv.
  rewrite length_fmap.
  destruct (Z.eqb_spec (Z.of_nat (length lines)) 0) as [H0|_].
  { destruct lines; [done|]. cbn in H0. lia. }
  cbn [rbind]. by rewrite text_cues_from_strings.
Qed.




(** The text lines [_assemble_video] hands to the timing engine. *)
Lemma text_lines_of_text_fields env hook (body : list pystr) repeat_phrase :
  ∃ last_line,
    VideoService.text_lines_of env (VStr hook) (VList (VStr <$> body))
      repeat_phrase
    = Ok (VStr <$> (hook :: body ++ [last_line]))
    ∧ length (hook :: body ++ [last_line]) = (length body + 2)%nat.
Proof.
  eexists. split.
  - cbn. by rewrite fmap_app.
  - cbn. rewrite length_app. cbn. lia.
Qed.

End Timing.





(** ** Frame and totality of the service calls *)

Section Preserves.
Context (R : relation State) `{!PreOrder R}.

Lemma preserves_ret {A} (a : A) : preserves R (ret a).
Proof. intros st. reflexivity. Qed.

Lemma preserves_raise {A} e : preserves R (@raise A e).
Proof. intros st. reflexivity. Qed.

Lemma preserves_lift {A} (r : result A) : preserves R (lift r).
Proof. intros st. reflexivity. Qed.

Lemma preserves_get_state : preserves R get_state.
Proof. intros st. reflexivity. Qed.

Lemma preserves_path_exists path : preserves R (path_exists path).
Proof. intros st. reflexivity. Qed.

Lemma preserves_modify f : (∀ st, R st (f st)) → preserves R (modify f).
Proof. intros H st. apply H. Qed.

Lemma preserves_bind {A B} (m : M A) (k : A → M B) :
  preserves R m → (∀ a, preserves R (k a)) → preserves R (bind m k).
Proof.
  intros Hm Hk st. unfold bind. specialize (Hm st).
  destruct (m st) as [[a|e] st1]; cbn in *; [|done].
  etrans; [exact Hm | apply Hk].
Qed.

Lemma preserves_try_except {A} (m : M A) (h : exn → M A) :
  preserves R m → (∀ e, preserves R (h e)) → preserves R (try_except m h).
Proof.
  intros Hm Hh st. unfold try_except. specialize (Hm st).
  destruct (m st) as [[a|e] st1]; cbn in *; [done|].
  etrans; [exact Hm | apply Hh].
Qed.

End Preserves.

#[global] Instance frame_preorder : PreOrder frame.
Proof.
  split.
  - intros st. by repeat split.
  - intros st1 st2 st3 (?&?&?&?&?) (?&?&?&?&?). repeat split; congruence.
Qed.

#[global] Instance steady_preorder : PreOrder steady.
Proof.
  split.
  - intros st. by repeat split.
  - intros st1 st2 st3 (?&?&?&?) (?&?&?&?). repeat split; try congruence. lia.
Qed.

Lemma frame_steady st st' : frame st st' → steady st st'.
Proof. intros (?&?&?&?&?). repeat split; try done. lia. Qed.

Lemma preserves_frame_steady {A} (m : M A) :
  preserves frame m → preserves steady m.
Proof. intros H st. apply frame_steady, H. Qed.

Create HintDb preserves.

Ltac preserves_step :=
  lazymatch goal with
  | |- preserves _ (ret _) => refine (preserves_ret _ _)
  | |- preserves _ (raise _) => refine (preserves_raise _ _)
  | |- preserves _ (lift _) => refine (preserves_lift _ _)
  | |- preserves _ get_state => refine (preserves_get_state _)
  | |- preserves _ (path_exists _) => refine (preserves_path_exists _ _)
  | |- preserves _ (bind _ _) =>
      refine (preserves_bind _ _ _ _ _); [|intros ?]
  | |- preserves _ (try_except _ _) =>
      refine (preserves_try_except _ _ _ _ _); [|intros ?]
  | |- preserves _ (modify _) =>
      refine (preserves_modify _ _ _); intros ?; repeat split; cbn;
      (done || lia)
  | |- preserves _ (match _ with _ => _ end) => case_match
  | |- preserves _ (let _ := _ in _) => cbv zeta
  | |- preserves _ _ => solve [auto with preserves]
  end.

Ltac preserves_auto := repeat preserves_step.

Section Services.

Lemma framed_run_subprocess env cmd : preserves frame (run_subprocess env cmd).
Proof. intros st. by repeat split. Qed.

Lemma framed_write_file path data : preserves frame (write_file path data).
Proof. intros st. by repeat split. Qed.

#[local] Hint Resolve framed_run_subprocess framed_write_file : preserves.

Lemma framed_is_available env : preserves frame (VideoService.is_available env).
Proof. unfold VideoService.is_available. preserves_auto. Qed.

Lemma framed_text_to_speech env text voice output_path :
  preserves frame (TTSService.text_to_speech env text voice output_path).
Proof. unfold TTSService.text_to_speech. preserves_auto. Qed.

Lemma framed_assemble_video env script audio_path output_path :
  preserves frame
    (VideoService._assemble_video env script audio_path output_path).
Proof.
  unfold VideoService._assemble_video, VideoService.assemble_command.
  preserves_auto.
Qed.

Lemma framed_create_placeholder_video script output_name :
  preserves frame (VideoService._create_placeholder_video script output_name).
Proof. unfold VideoService._create_placeholder_video. preserves_auto. Qed.

#[local] Hint Resolve framed_is_available framed_text_to_speech
  framed_assemble_video framed_create_placeholder_video : preserves.

Lemma framed_create_video env script audio_path output_name :
  preserves frame
    (VideoService.create_video env script audio_path output_name).
Proof. unfold VideoService.create_video. preserves_auto. Qed.

Lemma steady_uuid4 env : preserves steady (uuid4 env).
Proof. intros st. repeat split; cbn; lia. Qed.

Lemma steady_generate_video_script env fact vibe st :
  let st' := (AIService.generate_video_script env fact vibe st).2 in
  extracted_facts st' = extracted_facts st
  ∧ generated_videos st' = generated_videos st
  ∧ rendered_videos st' = rendered_videos st
  ∧ uuid_count st' = uuid_count st
  ∧ script_calls st' = (fact, vibe) :: script_calls st.
Proof.
  unfold AIService.generate_video_script, bind, get_state, modify. cbn.
  destruct (negb (AIService.client env)); [done|].
  by destruct (gemini_script _ _ _ _).
Qed.

(** The probe returns, and afterwards its answer is remembered. *)
Lemma is_available_returns env st :
  ∃ b st', VideoService.is_available env st = (Ok b, st')
           ∧ _ffmpeg_available st' = Some b
           ∧ (∀ b0, _ffmpeg_available st = Some b0 → b = b0 ∧ st' = st).
Proof.
  unfold VideoService.is_available, bind, get_state. cbn.
  destruct (_ffmpeg_available st) as [b|] eqn:Hb.
  - exists b, st. cbn. repeat split; congruence.
  - eexists _, _. cbn. split; [reflexivity|]. split; [reflexivity|]. done.
Qed.

Lemma is_available_cached env st b :
  _ffmpeg_available st = Some b →
  VideoService.is_available env st = (Ok b, st).
Proof.
  intros Hb. unfold VideoService.is_available, bind, get_state. cbn.
  by rewrite Hb.
Qed.

Lemma text_to_speech_returns env text voice output_path :
  returns (TTSService.text_to_speech env text voice output_path).
Proof.
  intros st. unfold TTSService.text_to_speech.
  destruct (negb (TTSService.is_available env)); [by eexists _, _|].
  unfold try_except, bind, get_state, modify. cbn.
  destruct (elevenlabs_post _ _ _ _) as [code bytes|]; cbn; [|by eexists _, _].
  destruct (code =? 200); [|by eexists _, _].
  destruct (TTSService.path_given output_path) as [path|]; [|by eexists _, _].
  case_bool_decide; cbn; by eexists _, _.
Qed.

End Services.

#[global] Hint Resolve framed_run_subprocess framed_write_file
  framed_is_available framed_text_to_speech framed_assemble_video
  framed_create_placeholder_video framed_create_video : preserves.


(** ** The assembler always hands back a path *)

Section CreateVideo.

Lemma bind_ok {A B} (m : M A) (k : A → M B) st a st1 :
  m st = (Ok a, st1) → bind m k st = k a st1.
Proof. intros H. unfold bind. by rewrite H. Qed.

Lemma bind_raise {A B} (m : M A) (k : A → M B) st e st1 :
  m st = (Raise e, st1) → bind m k st = (Raise e, st1).
Proof. intros H. unfold bind. by rewrite H. Qed.

Lemma pair_eta_fst {A B} (p : A * B) (a : A) : p.1 = a → p = (a, p.2).
Proof. destruct p. cbn. by intros ->. Qed.

Lemma create_video_cases env script audio_path output_name st b st1 :
  VideoService.is_available env st = (Ok b, st1) →
  ∃ st',
    VideoService.create_video env script audio_path output_name st
    = (Ok (Some
             match b, (VideoService._assemble_video env script audio_path
                         (media_path output_name) st1).1 with
             | true, Ok _ => media_path output_name
             | _, _ => placeholder_path output_name
             end), st').
Proof.
  intros Hav. unfold VideoService.create_video.
  rewrite (bind_ok _ _ _ _ _ Hav). destruct b; cbn [negb].
  - unfold try_except. fold (media_path output_name).
    unfold bind at 1.
    destruct (VideoService._assemble_video _ _ _ _ st1) as [[[]|e] st2];
      cbn; by eexists.
  - by eexists.
Qed.

Lemma create_video_returns env script audio_path output_name st :
  ∃ path st',
    VideoService.create_video env script audio_path output_name st
    = (Ok (Some path), st')
    ∧ (path = media_path output_name ∨ path = placeholder_path output_name).
Proof.
  destruct (is_available_returns env st) as (b & st1 & Hav & _).
  destruct (create_video_cases env script audio_path output_name st b st1 Hav)
    as [st' H].
  eexists _, st'. split; [exact H|].
  destruct b; [|by right].
  destruct (VideoService._assemble_video _ _ _ _ _).1; [by left|by right].
Qed.

Lemma render_with_ffmpeg_returns env request script narration result st :
  ∃ r st' path,
    render_with_ffmpeg env request script narration result st = (Ok r, st')
    ∧ RenderResult.render_id r = RenderResult.render_id result
    ∧ RenderResult.video_id r = RenderResult.video_id result
    ∧ RenderResult.video_path r = Some path
    ∧ (path = media_path (RenderResult.render_id result)
       ∨ path = placeholder_path (RenderResult.render_id result))
    ∧ RenderResult.status r =
        (if py_endswith (lit ".mp4") path then lit "complete"
         else lit "pending_ffmpeg").
Proof.
  unfold render_with_ffmpeg.
  set (audio := if wants_audio env request then _ else _).
  assert (∃ a st1, audio st = (Ok a, st1)) as (a & st1 & Ha).
  { subst audio. destruct (wants_audio env request); [|by eexists _, _].
    destruct (text_to_speech_returns env narration
                (VideoRenderRequest.mascot_voice request)
                (Some (audio_path_of (RenderResult.render_id result))) st)
      as (bytes & st1 & Htts).
    rewrite (bind_ok _ _ _ _ _ Htts). by eexists _, _. }
  rewrite (bind_ok _ _ _ _ _ Ha). cbv zeta.
  destruct (create_video_returns env script a.1
              (RenderResult.render_id result) st1) as (path & st2 & Hcv & Hpath).
  rewrite (bind_ok _ _ _ _ _ Hcv).
  eexists _, _, path. split; [reflexivity|]. by cbn.
Qed.

Lemma path_given_audio_path render_id :
  TTSService.path_given (Some (audio_path_of render_id))
  = Some (audio_path_of render_id).
Proof. reflexivity. Qed.

Lemma audio_path_has_directory render_id :
  Chars.slash ∈ audio_path_of render_id.
Proof.
  unfold audio_path_of.
  change (lit "data/audio/") with (lit "data" ++ [Chars.slash] ++ lit "audio/").
  rewrite !elem_of_app, list_elem_of_singleton. auto.
Qed.

Lemma render_without_ffmpeg_returns env request narration result st :
  ∃ r st',
    render_without_ffmpeg env request narration result st = (Ok r, st')
    ∧ RenderResult.render_id r = RenderResult.render_id result
    ∧ RenderResult.video_id r = RenderResult.video_id result
    ∧ RenderResult.video_path r = RenderResult.video_path result
    ∧ RenderResult.status r = lit "pending_ffmpeg"
    ∧ (∀ p, p ≠ audio_path_of (RenderResult.render_id result) →
         files st' !! p = files st !! p).
Proof.
  unfold render_without_ffmpeg.
  destruct (wants_audio env request).
  - unfold TTSService.text_to_speech.
    destruct (negb (TTSService.is_available env)); [by eexists _, _|].
    unfold try_except, bind, get_state, modify. cbn.
    destruct (elevenlabs_post _ _ _ _) as [code bytes|]; cbn; [|by eexists _, _].
    destruct (code =? 200); [|by eexists _, _].
    rewrite path_given_audio_path.
    rewrite (bool_decide_eq_true_2 _ (audio_path_has_directory _)). cbn.
    eexists _, _. split; [reflexivity|]. cbn. repeat split.
    intros p Hp. by rewrite lookup_insert_ne.
  - by eexists _, _.
Qed.

Lemma framed_render_with_ffmpeg env request script narration result :
  preserves frame (render_with_ffmpeg env request script narration result).
Proof. unfold render_with_ffmpeg. preserves_auto. Qed.

Lemma framed_render_without_ffmpeg env request narration result :
  preserves frame (render_without_ffmpeg env request narration result).
Proof. unfold render_without_ffmpeg. preserves_auto. Qed.

End CreateVideo.

#[global] Hint Resolve framed_render_with_ffmpeg framed_render_without_ffmpeg
  : preserves.

(** ** What a render request does *)

Section Render.

Lemma is_available_files env st :
  files (VideoService.is_available env st).2 = files st.
Proof.
  unfold VideoService.is_available, bind, get_state. cbn.
  by destruct (_ffmpeg_available st).
Qed.

Lemma render_video_unknown env request st :
  generated_videos st !! VideoRenderRequest.video_id request = None →
  render_video env request st
  = (Raise (HTTPException 404 (lit "Video not found. Generate first.")), st).
Proof.
  intros Hnone. unfold render_video, bind at 1, get_state. cbv zeta.
  by rewrite Hnone.
Qed.

(** A request for a known video whose narration can be put together
    returns a result, stored under the identifier drawn for it. *)
Lemma render_video_known env request st video narration :
  generated_videos st !! VideoRenderRequest.video_id request = Some video →
  narration_of env (Video.script video) = Ok narration →
  ∃ b st1 r st',
    VideoService.is_available env st = (Ok b, st1)
    ∧ render_video env request st = (Ok r, st')
    ∧ RenderResult.render_id r = uuid4_stream env (uuid_count st)
    ∧ RenderResult.video_id r = VideoRenderRequest.video_id request
    ∧ rendered_videos st'
      = <[RenderResult.render_id r := r]> (rendered_videos st)
    ∧ generated_videos st' = generated_videos st
    ∧ extracted_facts st' = extracted_facts st
    ∧ uuid_count st' = S (uuid_count st)
    ∧ (if b then
         ∃ path, RenderResult.video_path r = Some path
           ∧ (path = media_path (RenderResult.render_id r)
              ∨ path = placeholder_path (RenderResult.render_id r))
           ∧ RenderResult.status r =
               (if py_endswith (lit ".mp4") path then lit "complete"
                else lit "pending_ffmpeg")
       else
         RenderResult.status r = lit "pending_ffmpeg"
         ∧ RenderResult.video_path r = None
         ∧ ∀ p, p ≠ audio_path_of (RenderResult.render_id r) →
             files st' !! p = files st !! p).
Proof.
  intros Hvideo Hnarr.
  destruct (is_available_returns env st) as (b & st1 & Hav & Hcache & _).
  pose proof (framed_is_available env st) as Hfr1. rewrite Hav in Hfr1.
  cbn in Hfr1. destruct Hfr1 as (Hf1 & Hg1 & Hr1 & Hu1 & _).
  pose proof (is_available_files env st) as Hfiles1. rewrite Hav in Hfiles1.
  cbn in Hfiles1.
  exists b, st1. unfold render_video. cbv zeta.
  unfold bind at 1, get_state. rewrite Hvideo.
  rewrite (bind_ok _ _ _ _ _ Hav).
  erewrite bind_ok; [|reflexivity].
  rewrite Hnarr. erewrite bind_ok; [|reflexivity].
  set (st2 := set_uuid_count (S (uuid_count st1)) st1).
  erewrite (bind_ok (VideoService.is_available env));
    [|by apply is_available_cached].
  set (result := {| RenderResult.render_id := uuid4_stream env (uuid_count st1) |}).
  destruct b.
  - destruct (render_with_ffmpeg_returns env request (Video.script video)
                narration result st2)
      as (r & st3 & path & Hbody & Hid & Hvid & Hpath & Hcases & Hstatus).
    pose proof (framed_render_with_ffmpeg env request (Video.script video)
                  narration result st2) as Hfr. rewrite Hbody in Hfr.
    cbn in Hfr. destruct Hfr as (Hf3 & Hg3 & Hr3 & Hu3 & _).
    rewrite (bind_ok _ _ _ _ _ Hbody).
    eexists r, _. split; [exact Hav|].
    split; [reflexivity|]. cbn.
    rewrite Hid, Hvid, Hf3, Hg3, Hr3, Hu3. cbn. rewrite Hu1, Hr1, Hg1, Hf1.
    repeat split. exists path. cbn in Hcases. rewrite Hu1 in Hcases. done.
  - destruct (render_without_ffmpeg_returns env request narration result st2)
      as (r & st3 & Hbody & Hid & Hvid & Hpath & Hstatus & Hfiles).
    pose proof (framed_render_without_ffmpeg env request narration result st2)
      as Hfr. rewrite Hbody in Hfr.
    cbn in Hfr. destruct Hfr as (Hf3 & Hg3 & Hr3 & Hu3 & _).
    rewrite (bind_ok _ _ _ _ _ Hbody).
    eexists r, _. split; [exact Hav|].
    split; [reflexivity|]. cbn.
    rewrite Hid, Hvid, Hf3, Hg3, Hr3, Hu3. cbn. rewrite Hu1, Hr1, Hg1, Hf1.
    repeat split; try done.
    intros p Hp. rewrite Hfiles; [by cbn; rewrite Hfiles1|].
    cbn. by rewrite Hu1.
Qed.

(** A request whose narration cannot be put together raises what the
    join raised; nothing is stored. *)
Lemma render_video_bad_narration env request st video e :
  generated_videos st !! VideoRenderRequest.video_id request = Some video →
  narration_of env (Video.script video) = Raise e →
  ∃ st', render_video env request st = (Raise e, st')
         ∧ rendered_videos st' = rendered_videos st.
Proof.
  intros Hvideo Hnarr.
  destruct (is_available_returns env st) as (b & st1 & Hav & Hcache & _).
  pose proof (framed_is_available env st) as Hfr1. rewrite Hav in Hfr1.
  cbn in Hfr1. destruct Hfr1 as (Hf1 & Hg1 & Hr1 & Hu1 & _).
  unfold render_video. cbv zeta.
  unfold bind at 1, get_state. rewrite Hvideo.
  rewrite (bind_ok _ _ _ _ _ Hav).
  erewrite bind_ok; [|reflexivity].
  rewrite Hnarr. erewrite bind_raise; [|reflexivity].
  eexists. split; [reflexivity|]. by cbn.
Qed.

End Render.

Section RenderOutcomes.

Lemma all_strings_raises items e : all_strings items = Raise e → e = TypeError.
Proof.
  induction items as [|v items IH]; [discriminate|].
  destruct v; cbn; try by intros [= <-].
  destruct (all_strings items); cbn; [discriminate|].
  intros [= <-]. by apply IH.
Qed.

Lemma narration_of_raises env script e :
  narration_of env script = Raise e → e = TypeError.
Proof.
  unfold narration_of, join_object.
  destruct (dict_get script (lit "body") (VList [])) as [| | | | |items|];
    cbn; try by intros [= <-]; try discriminate.
  destruct (all_strings items) eqn:Hs; cbn; [discriminate|].
  intros [= <-]. by eapply all_strings_raises.
Qed.

Lemma render_video_no_attribute_error env request st :
  (render_video env request st).1 ≠ Raise AttributeError.
Proof.
  destruct (generated_videos st !! VideoRenderRequest.video_id request)
    as [video|] eqn:Hvideo.
  - destruct (narration_of env (Video.script video)) as [narration|e] eqn:Hn.
    + destruct (render_video_known env request st video narration Hvideo Hn)
        as (b & st1 & r & st' & _ & -> & _). discriminate.
    + destruct (render_video_bad_narration env request st video e Hvideo Hn)
        as (st' & -> & _). apply narration_of_raises in Hn as ->. discriminate.
  - rewrite render_video_unknown by done. discriminate.
Qed.

Lemma placeholder_is_not_audio render_id :
  placeholder_path render_id ≠ audio_path_of render_id.
Proof.
  unfold placeholder_path, audio_path_of, VideoService.path_join,
    VideoService.output_dir.
  change (lit "data/videos") with (lit "data/" ++ lit "videos").
  change (lit "data/audio/") with (lit "data/" ++ lit "audio/").
  rewrite <- !(assoc_L (++)). intros H. apply app_inv_head in H. discriminate.
Qed.

End RenderOutcomes.

(** C9. [create_video] returns a path for every script and output name,
    never [None]: the path of the media file when the toolchain is there
    and the assembly succeeds, the path of the placeholder when the toolchain
    is absent or the assembly raises.  The suffix check of [render_video]
    therefore never fails on [None]. *)
Theorem create_video_never_none (env : Env) (script : pydict)
    (audio_path : option pystr) (output_name : pystr) (st : State) :
  (∃ b st1 path st',
     VideoService.is_available env st = (Ok b, st1)
     ∧ VideoService.create_video env script audio_path output_name st
       = (Ok (Some path), st')
     ∧ path =
         match b, (VideoService._assemble_video env script audio_path
                     (media_path output_name) st1).1 with
         | true, Ok _ => media_path output_name
         | _, _ => placeholder_path output_name
         end)
  ∧ ∀ request st0, (render_video env request st0).1 ≠ Raise AttributeError.
Proof.
  split; [|apply render_video_no_attribute_error].
  destruct (is_available_returns env st) as (b & st1 & Hav & _).
  destruct (create_video_cases env script audio_path output_name st b st1 Hav)
    as [st' H].
  by eexists b, st1, _, st'.
Qed.

(** C1, as the code has it.  When the toolchain probe answers false, a
    render request for a known video whose narration text can be joined
    returns a result with status [pending_ffmpeg]; the result has no video
    path, and no placeholder file is written. *)
Theorem render_without_toolchain (env : Env) (request : VideoRenderRequest.t)
    (st st1 : State) (video : Video.t) (narration : pystr) :
  VideoService.is_available env st = (Ok false, st1) →
  generated_videos st !! VideoRenderRequest.video_id request = Some video →
  narration_of env (Video.script video) = Ok narration →
  ∃ r st',
    render_video env request st = (Ok r, st')
    ∧ RenderResult.status r = lit "pending_ffmpeg"
    ∧ RenderResult.video_path r = None
    ∧ rendered_videos st' !! RenderResult.render_id r = Some r
    ∧ files st' !! placeholder_path (RenderResult.render_id r)
      = files st !! placeholder_path (RenderResult.render_id r).
Proof.
  intros Hav Hvideo Hn.
  destruct (render_video_known env request st video narration Hvideo Hn)
    as (b & st1' & r & st' & Hav' & Hr & _ & _ & Hstore & _ & _ & _ & Hb).
  rewrite Hav in Hav'. injection Hav' as <- <-.
  destruct Hb as (Hstatus & Hpath & Hfiles).
  exists r, st'. repeat split; try done.
  - rewrite Hstore. apply lookup_insert_eq.
  - apply Hfiles, placeholder_is_not_audio.
Qed.

Lemma render_without_toolchain_witness :
  ∃ r st',
    render_video Sample.env Sample.render_request Sample.generated = (Ok r, st')
    ∧ RenderResult.status r = lit "pending_ffmpeg"
    ∧ RenderResult.video_path r = None.
Proof.
  destruct (render_without_toolchain Sample.env Sample.render_request
              Sample.generated
              (VideoService.is_available Sample.env Sample.generated).2
              Sample.video Sample.narration)
    as (r & st' & Hr & Hs & Hp & _).
  - apply pair_eta_fst. vm_compute. reflexivity.
  - vm_compute. reflexivity.
  - vm_compute. reflexivity.
  - by exists r, st'.
Defined.

(** Without a toolchain the result of a render has no video path and no
    placeholder exists; and a video whose generated script has a [null]
    body makes the request raise [TypeError]. *)
Lemma render_without_toolchain_counterexample :
  ((VideoService.is_available Sample.env Sample.generated).1 = Ok false
   ∧ is_Some (generated_videos Sample.generated
                !! VideoRenderRequest.video_id Sample.render_request)
   ∧ match render_video Sample.env Sample.render_request Sample.generated with
     | (Ok r, st') =>
         RenderResult.video_path r = None
         ∧ files st' !! placeholder_path (RenderResult.render_id r) = None
     | (Raise _, _) => False
     end)
  ∧ ((VideoService.is_available Sample.env_null_body
        Sample.generated_null_body).1 = Ok false
     ∧ is_Some (generated_videos Sample.generated_null_body
                  !! VideoRenderRequest.video_id Sample.render_request)
     ∧ (render_video Sample.env_null_body Sample.render_request
          Sample.generated_null_body).1 = Raise TypeError).
Proof.
  split; (split; [vm_compute; reflexivity|]);
    (split; [vm_compute; by eexists|]).
  - vm_compute. by split.
  - vm_compute. reflexivity.
Qed.


Lemma sample_uuid4_distinct : uuid4_distinct Sample.env.
Proof.
  intros i j H. apply (f_equal length) in H. cbn in H.
  rewrite !length_replicate in H. lia.
Qed.

Lemma sample_uuid4_no_underscore : uuid4_no_underscore Sample.env.
Proof.
  intros i. cbn. intros H. apply (elem_of_replicate (S i) 97%N 95%N) in H.
  by destruct H.
Qed.


(** ** The script cache *)

Section Generate.

Lemma generate_video_unknown env request st :
  extracted_facts st !! VideoGenerateRequest.fact_id request = None →
  generate_video env request st
  = (Raise (HTTPException 404 (lit "Fact not found")), st).
Proof.
  intros H. unfold generate_video, bind at 1, get_state. cbv zeta.
  by rewrite H.
Qed.

Lemma generate_video_hit env request st fact video :
  extracted_facts st !! VideoGenerateRequest.fact_id request = Some fact →
  generated_videos st
    !! cache_key_of (VideoGenerateRequest.fact_id request)
         (VideoGenerateRequest.vibe request) = Some video →
  generate_video env request st = (Ok video, st).
Proof.
  intros Hf Hv. unfold generate_video, bind at 1, get_state. cbv zeta.
  by rewrite Hf, Hv.
Qed.

(** On a miss the generator is called once, one identifier is drawn, and
    the new video is stored under both keys. *)
Lemma generate_video_miss env request st fact :
  let fact_id := VideoGenerateRequest.fact_id request in
  let vibe := VideoGenerateRequest.vibe request in
  extracted_facts st !! fact_id = Some fact →
  generated_videos st !! cache_key_of fact_id vibe = None →
  ∃ video st',
    generate_video env request st = (Ok video, st')
    ∧ Video.id video = uuid4_stream env (uuid_count st)
    ∧ Video.fact_id video = fact_id
    ∧ Video.vibe video = vibe
    ∧ generated_videos st'
      = <[Video.id video := video]>
          (<[cache_key_of fact_id vibe := video]> (generated_videos st))
    ∧ rendered_videos st' = rendered_videos st
    ∧ extracted_facts st' = extracted_facts st
    ∧ uuid_count st' = S (uuid_count st)
    ∧ script_calls st' = (Fact.fact fact, vibe) :: script_calls st.
Proof.
  intros fact_id vibe Hf Hv. unfold generate_video, bind at 1, get_state.
  cbv zeta. fold fact_id vibe. rewrite Hf, Hv.
  pose proof (steady_generate_video_script env (Fact.fact fact) vibe st)
    as Hgen. cbv zeta in Hgen.
  assert (∃ script_data st1,
            AIService.generate_video_script env (Fact.fact fact) vibe st
            = (Ok script_data, st1)) as (script_data & st1 & Hcall).
  { unfold AIService.generate_video_script, bind, get_state, modify. cbn.
    destruct (negb (AIService.client env)); [by eexists _, _|].
    destruct (gemini_script _ _ _ _); by eexists _, _. }
  rewrite Hcall in Hgen. cbn in Hgen.
  destruct Hgen as (Hf1 & Hg1 & Hr1 & Hu1 & Hs1).
  rewrite (bind_ok _ _ _ _ _ Hcall).
  eexists _, _. split; [reflexivity|]. cbn.
  rewrite Hf1, Hg1, Hr1, Hu1, Hs1. by repeat split.
Qed.

Lemma cons_neq {A} (x : A) (l : list A) : x :: l ≠ l.
Proof.
  intros H. apply (f_equal length) in H. cbn in H. lia.
Qed.

(** The three outcomes of [generate_video], by what the stores hold. *)
Lemma generate_video_cases env request st :
  let fact_id := VideoGenerateRequest.fact_id request in
  let vibe := VideoGenerateRequest.vibe request in
  let st' := (generate_video env request st).2 in
  (st' = st)
  ∨ (generated_videos st !! cache_key_of fact_id vibe = None
     ∧ ∃ video,
         (generate_video env request st).1 = Ok video
         ∧ Video.id video = uuid4_stream env (uuid_count st)
         ∧ generated_videos st'
           = <[Video.id video := video]>
               (<[cache_key_of fact_id vibe := video]> (generated_videos st))
         ∧ rendered_videos st' = rendered_videos st
         ∧ extracted_facts st' = extracted_facts st
         ∧ uuid_count st' = S (uuid_count st)
         ∧ script_calls st' ≠ script_calls st).
Proof.
  intros fact_id vibe st'. subst st'.
  destruct (extracted_facts st !! fact_id) as [fact|] eqn:Hf.
  - destruct (generated_videos st !! cache_key_of fact_id vibe) as [v|] eqn:Hv.
    + left. by erewrite generate_video_hit.
    + right. split; [done|].
      destruct (generate_video_miss env request st fact Hf Hv)
        as (video & st' & -> & Hid & _ & _ & Hg & Hr & Hfacts & Hu & Hs).
      exists video. cbn. repeat split; try done.
      rewrite Hs. apply cons_neq.
  - left. by rewrite generate_video_unknown.
Qed.

End Generate.

Section Runs.

Lemma steady_render_video env request :
  preserves steady (render_video env request).
Proof.
  unfold render_video.
  assert (∀ A (m : M A), preserves frame m → preserves steady m) as Hfs
    by (intros; by apply preserves_frame_steady).
  pose proof (steady_uuid4 env).
  preserves_auto; apply Hfs; auto with preserves.
Qed.

Lemma steady_get_video video_id : preserves steady (get_video video_id).
Proof. unfold get_video. preserves_auto. Qed.

(** An entry of the video store is never removed by a request. *)
Lemma run_op_keeps_keys env o st k :
  is_Some (generated_videos st !! k) →
  is_Some (generated_videos (run_op env o st) !! k).
Proof.
  intros Hk.
  destruct o as [request|request|video_id|facts fs drawn]; unfold run_op.
  - destruct (generate_video_cases env request st)
      as [Hsame|(_ & video & _ & _ & Hstore & _)]; cbv zeta in *.
    + by rewrite Hsame.
    + rewrite Hstore, !lookup_insert. repeat case_decide; by eauto.
  - destruct (steady_render_video env request st) as (_ & Hg & _).
    by rewrite Hg.
  - destruct (steady_get_video video_id st) as (_ & Hg & _). by rewrite Hg.
  - done.
Qed.

Lemma invocation_was_miss env ops st fact_id vibe :
  (fact_id, vibe) ∈ generator_invocations env ops st →
  generated_videos st !! cache_key_of fact_id vibe = None.
Proof.
  revert st. induction ops as [|o ops IH]; intros st;
    cbn [generator_invocations].
  { by intros ?%elem_of_nil. }
  assert ((fact_id, vibe) ∈ generator_invocations env ops (run_op env o st) →
          generated_videos st !! cache_key_of fact_id vibe = None) as Hlater.
  { intros Hin%IH. apply eq_None_not_Some. intros Hsome.
    apply (run_op_keeps_keys env o) in Hsome. rewrite Hin in Hsome.
    by destruct Hsome. }
  destruct o as [request| | |]; try done.
  case_bool_decide as Hcalls; [done|].
  intros [Heq|Hin]%elem_of_cons; [|by apply Hlater].
  injection Heq as -> ->.
  destruct (generate_video_cases env request st) as [Hsame|(Hmiss & _)];
    [|done].
  unfold run_op in Hcalls. cbv zeta in Hsame. by rewrite Hsame in Hcalls.
Qed.

Lemma generator_invocations_NoDup env ops st :
  NoDup (generator_invocations env ops st).
Proof.
  revert st. induction ops as [|o ops IH]; intros st;
    cbn [generator_invocations]; [constructor|].
  destruct o as [request| | |]; try apply IH.
  case_bool_decide as Hcalls; [apply IH|].
  constructor; [|apply IH].
  intros Hin%invocation_was_miss.
  destruct (generate_video_cases env request st)
    as [Hsame|(_ & video & _ & _ & Hstore & _)]; cbv zeta in *.
  - unfold run_op in Hcalls. by rewrite Hsame in Hcalls.
  - unfold run_op in Hin. rewrite Hstore in Hin. rewrite lookup_insert in Hin.
    case_decide; [done|]. by rewrite lookup_insert_eq in Hin.
Qed.

Lemma generate_video_stores_key env request st video st1 :
  generate_video env request st = (Ok video, st1) →
  ∃ fact,
    extracted_facts st1 !! VideoGenerateRequest.fact_id request = Some fact
    ∧ generated_videos st1
        !! cache_key_of (VideoGenerateRequest.fact_id request)
             (VideoGenerateRequest.vibe request) = Some video.
Proof.
  intros Hgen.
  destruct (extracted_facts st !! VideoGenerateRequest.fact_id request)
    as [fact|] eqn:Hf.
  2: { by rewrite generate_video_unknown in Hgen. }
  exists fact.
  destruct (generated_videos st
              !! cache_key_of (VideoGenerateRequest.fact_id request)
                   (VideoGenerateRequest.vibe request)) as [v|] eqn:Hv.
  - rewrite (generate_video_hit env request st fact v Hf Hv) in Hgen.
    by injection Hgen as <- <-.
  - destruct (generate_video_miss env request st fact Hf Hv)
      as (video' & st' & Hgen' & _ & _ & _ & Hstore & _ & Hfacts & _).
    rewrite Hgen' in Hgen. injection Hgen as <- <-.
    split; [by rewrite Hfacts|].
    rewrite Hstore, lookup_insert. case_decide; [done|].
    apply lookup_insert_eq.
Qed.

End Runs.

(** C3. A second [generate_video] for the same fact and vibe returns the
    very video (and so the very script) the first one returned and leaves
    the whole state alone, the log of generator calls included; and over any
    run of requests, no (fact id, vibe) key makes [generate_video] call the
    script generator twice. *)
Theorem script_cache_idempotent (env : Env) :
  (∀ request st video st1,
     generate_video env request st = (Ok video, st1) →
     generate_video env request st1 = (Ok video, st1))
  ∧ (∀ ops st, NoDup (generator_invocations env ops st)).
Proof.
  split; [|intros; apply generator_invocations_NoDup].
  intros request st video st1 Hgen.
  destruct (generate_video_stores_key env request st video st1 Hgen)
    as (fact & Hfact & Hkey).
  by eapply generate_video_hit.
Qed.

Lemma script_cache_idempotent_witness :
  ∃ video st1,
    generate_video Sample.env Sample.generate_request Sample.start
    = (Ok video, st1)
    ∧ generate_video Sample.env Sample.generate_request st1 = (Ok video, st1)
    ∧ script_calls st1 = [(lit "Water boils at 100 C", Some (lit "hype"))].
Proof.
  exists Sample.video, Sample.generated.
  assert (generate_video Sample.env Sample.generate_request Sample.start
          = (Ok Sample.video, Sample.generated)) as H.
  { apply pair_eta_fst. vm_compute. reflexivity. }
  split; [exact H|]. split.
  - exact (proj1 (script_cache_idempotent Sample.env) _ _ _ _ H).
  - vm_compute. reflexivity.
Defined.

(** ** The two keys of a video *)

Section StoreInvariant.
Context (env : Env).
Hypothesis Hdistinct : uuid4_distinct env.
Hypothesis Hhex : uuid4_no_underscore env.

Lemma cache_key_has_underscore fact_id vibe :
  95%N ∈ cache_key_of fact_id vibe.
Proof.
  unfold cache_key_of. change (lit "_") with [95%N].
  rewrite !elem_of_app, list_elem_of_singleton. auto.
Qed.

Lemma initial_consistent st : initial st → store_consistent env st.
Proof. intros (Hg & _) k v. by rewrite Hg, lookup_empty. Qed.

(** A key of a consistent store is not the next identifier. *)
Lemma fresh_identifier st k v :
  store_consistent env st →
  generated_videos st !! k = Some v →
  k ≠ uuid4_stream env (uuid_count st).
Proof.
  intros Hinv Hk Heq. destruct (Hinv k v Hk) as (_ & _ & [Hus|(j & Hj & Hkj)]).
  - rewrite Heq in Hus. by apply Hhex in Hus.
  - rewrite Hkj in Heq. apply Hdistinct in Heq. lia.
Qed.

Lemma consistent_mono st st' :
  generated_videos st' = generated_videos st →
  (uuid_count st ≤ uuid_count st')%nat →
  store_consistent env st → store_consistent env st'.
Proof.
  intros Hg Hu Hinv k v. rewrite Hg. intros Hk.
  destruct (Hinv k v Hk) as (Hid & (j & Hj & Hvj) & Hkey).
  split; [done|]. split.
  - exists j. split; [lia|done].
  - destruct Hkey as [?|(j' & Hj' & ?)]; [by left|].
    right. exists j'. split; [lia|done].
Qed.

Lemma steady_consistent st st' :
  steady st st' → store_consistent env st → store_consistent env st'.
Proof. intros (_ & Hg & _ & Hu). by apply consistent_mono. Qed.

Lemma generate_video_consistent request st :
  store_consistent env st →
  store_consistent env (generate_video env request st).2
  ∧ ∀ k v, generated_videos st !! k = Some v →
      generated_videos (generate_video env request st).2 !! k = Some v.
Proof.
  intros Hinv.
  destruct (generate_video_cases env request st)
    as [Hsame|(Hmiss & video & _ & Hid & Hstore & _ & _ & Hu & _)];
    cbv zeta in *.
  { by rewrite Hsame. }
  set (ck := cache_key_of (VideoGenerateRequest.fact_id request)
               (VideoGenerateRequest.vibe request)) in *.
  assert (∀ k v, generated_videos st !! k = Some v →
            generated_videos (generate_video env request st).2 !! k = Some v)
    as Hkeep.
  { intros k v Hk. rewrite Hstore.
    rewrite lookup_insert_ne.
    - rewrite lookup_insert_ne; [done|]. intros <-. by rewrite Hmiss in Hk.
    - rewrite Hid. intros Heq. by eapply fresh_identifier. }
  split; [|exact Hkeep].
  intros k v. rewrite Hstore, Hu.
  assert (<[Video.id video:=video]>
            (<[ck:=video]> (generated_videos st)) !! Video.id video
          = Some video) as Hnew by apply lookup_insert_eq.
  rewrite lookup_insert. case_decide as Hk1.
  { intros [= <-]. split; [done|]. split.
    - exists (uuid_count st). split; [lia|done].
    - right. exists (uuid_count st). split; [lia|]. by rewrite <- Hk1. }
  rewrite lookup_insert. case_decide as Hk2.
  { intros [= <-]. split; [done|]. split.
    - exists (uuid_count st). split; [lia|done].
    - left. rewrite <- Hk2. apply cache_key_has_underscore. }
  intros Hk. destruct (Hinv k v Hk) as (Hvid & (j & Hj & Hvj) & Hkey).
  split.
  - rewrite <- Hstore. by apply Hkeep.
  - split.
    + exists j. split; [lia|done].
    + destruct Hkey as [?|(j' & Hj' & ?)]; [by left|].
      right. exists j'. split; [lia|done].
Qed.

Lemma run_op_consistent o st :
  store_consistent env st →
  store_consistent env (run_op env o st)
  ∧ ∀ k v, generated_videos st !! k = Some v →
      generated_videos (run_op env o st) !! k = Some v.
Proof.
  intros Hinv.
  destruct o as [request|request|video_id|facts fs drawn]; unfold run_op.
  - by apply generate_video_consistent.
  - pose proof (steady_render_video env request st) as Hs. split.
    + by eapply steady_consistent.
    + destruct Hs as (_ & Hg & _). by rewrite Hg.
  - pose proof (steady_get_video video_id st) as Hs. split.
    + by eapply steady_consistent.
    + destruct Hs as (_ & Hg & _). by rewrite Hg.
  - split; [|done].
    eapply consistent_mono; [| |done]; cbn; [done|lia].
Qed.

Lemma run_ops_consistent ops st :
  store_consistent env st →
  store_consistent env (run_ops env ops st)
  ∧ ∀ k v, generated_videos st !! k = Some v →
      generated_videos (run_ops env ops st) !! k = Some v.
Proof.
  revert st. induction ops as [|o ops IH]; intros st Hinv; [done|].
  cbn. destruct (run_op_consistent o st Hinv) as [Hinv' Hkeep].
  destruct (IH _ Hinv') as [Hinv'' Hkeep'].
  split; [done|]. intros k v Hk. by apply Hkeep', Hkeep.
Qed.

Lemma reachable_consistent st : reachable env st → store_consistent env st.
Proof.
  intros (st0 & ops & Hinit & ->).
  by apply run_ops_consistent, initial_consistent.
Qed.

End StoreInvariant.

(** C6. In a running process, after [generate_video] has returned a video,
    the cache key of the request and the identifier of the video lead to
    that same record in the video store, and they still do after any run
    of further requests; [get_video] on the identifier returns it.
    Identifiers drawn from [uuid4] are taken to be pairwise distinct and
    free of underscores. *)
Theorem cache_key_and_id_agree (env : Env) (request : VideoGenerateRequest.t)
    (st st1 : State) (video : Video.t) (ops : list op) :
  uuid4_distinct env →
  uuid4_no_underscore env →
  reachable env st →
  generate_video env request st = (Ok video, st1) →
  let st2 := run_ops env ops st1 in
  let cache_key := cache_key_of (VideoGenerateRequest.fact_id request)
                     (VideoGenerateRequest.vibe request) in
  generated_videos st2 !! cache_key = Some video
  ∧ generated_videos st2 !! Video.id video = Some video
  ∧ get_video (Video.id video) st2 = (Ok video, st2)
  ∧ store_consistent env st2.
Proof.
  intros Hdistinct Hhex Hreach Hgen st2 cache_key.
  pose proof (reachable_consistent env Hdistinct Hhex st Hreach) as Hinv.
  destruct (generate_video_consistent env Hdistinct Hhex request st Hinv)
    as [Hinv1 _].
  rewrite Hgen in Hinv1. cbn in Hinv1.
  destruct (generate_video_stores_key env request st video st1 Hgen)
    as (fact & _ & Hkey).
  destruct (Hinv1 _ _ Hkey) as (Hid & _).
  destruct (run_ops_consistent env Hdistinct Hhex ops st1 Hinv1)
    as [Hinv2 Hkeep].
  fold st2 in Hinv2, Hkeep.
  assert (generated_videos st2 !! Video.id video = Some video) as Hid2
    by by apply Hkeep.
  split; [by apply Hkeep|]. split; [exact Hid2|]. split; [|exact Hinv2].
  unfold get_video, bind, get_state. by rewrite Hid2.
Qed.

Lemma cache_key_and_id_agree_witness :
  let st2 := run_ops Sample.env [OpRender Sample.render_request]
               Sample.generated in
  generated_videos st2 !! lit "f1_hype" = Some Sample.video
  ∧ generated_videos st2 !! [97%N] = Some Sample.video
  ∧ get_video [97%N] st2 = (Ok Sample.video, st2)
  ∧ store_consistent Sample.env st2.
Proof.
  apply (cache_key_and_id_agree Sample.env Sample.generate_request
           Sample.start Sample.generated Sample.video
           [OpRender Sample.render_request]).
  - exact sample_uuid4_distinct.
  - exact sample_uuid4_no_underscore.
  - exists Sample.start, []. split; [by repeat split|reflexivity].
  - apply pair_eta_fst. vm_compute. reflexivity.
Defined.

(** ** The command of the assembler *)

Section Assemble.

Lemma first_or_empty_strings (body : list pystr) :
  ∃ v, VideoService.first_or_empty (VList (VStr <$> body)) = Ok v.
Proof. destruct body; by eexists. Qed.

Lemma build_text_filter_strings env (lines : list pystr) :
  lines ≠ [] →
  ∃ text_filter, _build_text_filter env (VStr <$> lines) 15 = Ok text_filter.
Proof.
  intros Hne. unfold _build_text_filter.
  rewrite build_cues_strings by done. by eexists.
Qed.

(** With text fields of the declared shape and a hashable background name
    the command is put together, whatever the rest of the script holds. *)
Lemma assemble_command_ok env script audio_path output_path st hook body
    bg_video :
  text_fields script hook body →
  VideoService.bg_video_of
    (dict_get script (lit "bg_suggestion") (VStr (lit "subway_surfers")))
  = Ok bg_video →
  let bg_path :=
    VideoService.path_join
      (VideoService.path_join VideoService.assets_dir (lit "backgrounds"))
      bg_video in
  ∃ text_filter,
    VideoService.assemble_command env script audio_path output_path st
    = (Ok ([VideoService.FFMPEG_PATH env; lit "-y"]
           ++ VideoService.background_args
                (bool_decide (is_Some (files st !! bg_path))) bg_path 15
           ++ VideoService.output_args (audio_input st audio_path)
                text_filter output_path), st).
Proof.
  intros (Hhook & Hbody) Hbg bg_path.
  unfold VideoService.assemble_command. rewrite Hhook, Hbody.
  destruct (first_or_empty_strings body) as (dflt & Hdflt).
  rewrite Hdflt. erewrite bind_ok; [|reflexivity].
  destruct (text_lines_of_text_fields env hook body
              (dict_get script (lit "repeat_phrase") dflt))
    as (last_line & Hlines & _).
  rewrite Hlines. erewrite bind_ok; [|reflexivity].
  destruct (build_text_filter_strings env (hook :: body ++ [last_line]))
    as (text_filter & Hfilter); [done|].
  rewrite Hfilter. erewrite bind_ok; [|reflexivity].
  rewrite Hbg. erewrite bind_ok; [|reflexivity].
  erewrite bind_ok; [|reflexivity].
  exists text_filter. fold bg_path.
  destruct audio_path as [[|c p]|]; cbn [audio_input].
  - erewrite bind_ok; [|reflexivity]. unfold ret. by rewrite <- !(assoc_L (++)).
  - erewrite bind_ok; [|unfold path_exists; erewrite bind_ok; reflexivity].
    unfold ret. rewrite <- !(assoc_L (++)). by case_bool_decide.
  - erewrite bind_ok; [|reflexivity]. unfold ret. by rewrite <- !(assoc_L (++)).
Qed.

(** [_assemble_video] runs the toolchain exactly once, on that command. *)
Lemma assemble_video_single_invocation env script audio_path output_path st
    hook body bg_video :
  text_fields script hook body →
  VideoService.bg_video_of
    (dict_get script (lit "bg_suggestion") (VStr (lit "subway_surfers")))
  = Ok bg_video →
  ∃ cmd,
    VideoService.assemble_command env script audio_path output_path st
    = (Ok cmd, st)
    ∧ subprocess_calls
        (VideoService._assemble_video env script audio_path output_path st).2
      = cmd :: subprocess_calls st.
Proof.
  intros Htext Hbg.
  destruct (assemble_command_ok env script audio_path output_path st hook body
              bg_video Htext Hbg) as (text_filter & Hcmd).
  eexists. split; [exact Hcmd|].
  unfold VideoService._assemble_video. rewrite (bind_ok _ _ _ _ _ Hcmd).
  erewrite bind_ok; [|reflexivity].
  destruct (subprocess_run env _ _) as [code stderr|]; [|done].
  by destruct (negb (code =? 0)).
Qed.

(** The shape of the command when a narration file is there: video is mapped
    from input 0, audio from input 1, and the output stops with the shorter
    stream; without narration there is one input and no mapping. *)
Lemma output_args_shape text_filter output_path :
  (∀ audio,
     VideoService.output_args (Some audio) text_filter output_path
     = [lit "-i"; audio; lit "-vf"; text_filter; lit "-map"; lit "0:v";
        lit "-map"; lit "1:a"; lit "-shortest"; lit "-c:v"; lit "libx264";
        lit "-preset"; lit "fast"; lit "-crf"; lit "23"; lit "-c:a";
        lit "aac"; lit "-b:a"; lit "128k"; output_path])
  ∧ VideoService.output_args None text_filter output_path
    = [lit "-vf"; text_filter; lit "-c:v"; lit "libx264"; lit "-preset";
       lit "fast"; lit "-crf"; lit "23"; output_path].
Proof. split; reflexivity. Qed.

(** A script as [generate_video] stores it has no [bg_suggestion] key (the
    suggestion is kept under [background]), so for such a script the
    assembler always looks the default name up. *)
Lemma stored_script_background video_id fact_id fact script_data :
  dict_get (script_of video_id fact_id fact script_data)
    (lit "bg_suggestion") (VStr (lit "subway_surfers"))
  = VStr (lit "subway_surfers").
Proof. vm_compute. reflexivity. Qed.

End Assemble.

(** C10. For a script whose background name is none of the four keys of
    the table, the assembler takes the subway_surfers asset as the
    background candidate: the command loops that file (cut at 15 seconds)
    when it exists on disk, and uses the solid colour source only when it
    does not. *)
Theorem unknown_background_falls_back (env : Env) (script : pydict)
    (audio_path : option pystr) (output_path : pystr) (st : State)
    (name hook : pystr) (body : list pystr) :
  script !! lit "bg_suggestion" = Some (VStr name) →
  name ∉ (fst <$> VideoService.BG_VIDEOS) →
  text_fields script hook body →
  VideoService.bg_video_of (VStr name) = Ok (lit "subway_surfers.mp4")
  ∧ ∃ text_filter,
      VideoService.assemble_command env script audio_path output_path st
      = (Ok ([VideoService.FFMPEG_PATH env; lit "-y"]
             ++ (if bool_decide (is_Some (files st !! subway_surfers_path))
                 then [lit "-stream_loop"; lit "-1"; lit "-i";
                       subway_surfers_path; lit "-t"; lit "15"]
                 else [lit "-f"; lit "lavfi"; lit "-i";
                       lit "color=c=0x667eea:s=1080x1920:d=15"])
             ++ VideoService.output_args (audio_input st audio_path)
                  text_filter output_path), st).
Proof.
  intros Hbg Hname Htext.
  assert (VideoService.bg_video_of (VStr name) = Ok (lit "subway_surfers.mp4"))
    as Hvideo.
  { unfold VideoService.bg_video_of. cbn [hashable negb].
    destruct (list_find _ _) as [[i kv]|] eqn:Hfind; [|done].
    apply list_find_Some in Hfind as (Hi & Hkv & _).
    exfalso. apply Hname. rewrite <- Hkv.
    apply list_elem_of_fmap. exists kv. split; [done|].
    by eapply list_elem_of_lookup_2. }
  split; [exact Hvideo|].
  destruct (assemble_command_ok env script audio_path output_path st hook body
              (lit "subway_surfers.mp4") Htext) as (text_filter & Hcmd).
  { unfold dict_get. by rewrite Hbg. }
  exists text_filter. rewrite Hcmd. fold subway_surfers_path.
  by case_bool_decide.
Qed.

Lemma unknown_background_falls_back_witness :
  ∃ cmd,
    (VideoService.assemble_command Sample.env_ffmpeg
       (<[lit "bg_suggestion" := VStr (lit "lofi_rain")]> Sample.script)
       None (media_path (lit "r1")) Sample.generated_ffmpeg).1 = Ok cmd
    ∧ take 6 cmd = [lit "ffmpeg"; lit "-y"; lit "-f"; lit "lavfi"; lit "-i";
                    lit "color=c=0x667eea:s=1080x1920:d=15"].
Proof.
  destruct (unknown_background_falls_back Sample.env_ffmpeg
              (<[lit "bg_suggestion" := VStr (lit "lofi_rain")]> Sample.script)
              None (media_path (lit "r1")) Sample.generated_ffmpeg
              (lit "lofi_rain") (lit "Okay but like...")
              [lit "Water boils at 100 C..."; lit "This is actually SO important";
               lit "Remember this fr fr"])
    as (_ & text_filter & Hcmd).
  - by rewrite lookup_insert_eq.
  - vm_compute. intros H. repeat (inversion_clear H as [|? ? ? H']; rename H' into H).
  - split; vm_compute; reflexivity.
  - rewrite Hcmd. eexists. split; [reflexivity|]. reflexivity.
Defined.

(** ** Narration text sent to the provider *)

Section Narration.

Lemma submitted_text_prefix text :
  TTSService.submitted_text text = py_prefix 5000 text.
Proof.
  unfold TTSService.submitted_text, py_prefix, py_len.
  destruct (Z.ltb_spec 5000 (Z.of_nat (length text))); [done|].
  rewrite take_ge; [done|lia].
Qed.

Lemma submitted_text_length text :
  py_len (TTSService.submitted_text text) ≤ 5000.
Proof.
  rewrite submitted_text_prefix. unfold py_len, py_prefix.
  rewrite length_take. lia.
Qed.

Lemma submitted_text_idempotent text :
  TTSService.submitted_text (TTSService.submitted_text text)
  = TTSService.submitted_text text.
Proof.
  rewrite !submitted_text_prefix. unfold py_prefix.
  by rewrite take_take.
Qed.

Lemma text_to_speech_logs env text voice output_path st :
  TTSService.is_available env = true →
  ∃ r st',
    TTSService.text_to_speech env text voice output_path st = (Ok r, st')
    ∧ tts_calls st'
      = (TTSService.voice_id_of voice, TTSService.submitted_text text)
        :: tts_calls st
    ∧ (∀ audio_bytes,
         elevenlabs_post env (TTSService.voice_id_of voice)
           (TTSService.submitted_text text) (length (tts_calls st))
         = Response 200 audio_bytes →
         TTSService.path_given output_path = None →
         r = Some audio_bytes).
Proof.
  intros Hav. unfold TTSService.text_to_speech. rewrite Hav. cbn [negb].
  unfold try_except, bind, get_state, modify. cbn.
  destruct (elevenlabs_post _ _ _ _) as [code bytes|]; cbn.
  2: { eexists _, _. by repeat split. }
  destruct (Z.eqb_spec code 200) as [->|Hcode].
  2: { eexists _, _. split; [reflexivity|]. split; [done|].
       by intros b [= ? _]. }
  destruct (TTSService.path_given output_path) as [path|].
  - case_bool_decide; cbn; eexists _, _; by repeat split.
  - eexists _, _. split; [reflexivity|]. split; [done|]. by intros b [= <-] _.
Qed.

End Narration.

(** C8. When the speech service is configured, every text is submitted to
    the provider, whatever its length: what is submitted is the text itself
    when it has at most 5000 code points and its first 5000 code points
    otherwise, and the call gives exactly what it gives on that prefix, so
    no length leads to a different outcome. *)
Theorem narration_truncated_never_rejected (env : Env) (text : pystr)
    (voice output_path : option pystr) (st : State) :
  TTSService.is_available env = true →
  let sent := TTSService.submitted_text text in
  sent = py_prefix 5000 text
  ∧ py_len sent ≤ 5000
  ∧ (py_len text ≤ 5000 → sent = text)
  ∧ (5000 < py_len text → py_len sent = 5000)
  ∧ (∃ r st',
       TTSService.text_to_speech env text voice output_path st = (Ok r, st')
       ∧ tts_calls st' = (TTSService.voice_id_of voice, sent) :: tts_calls st
       ∧ (∀ audio_bytes,
            elevenlabs_post env (TTSService.voice_id_of voice) sent
              (length (tts_calls st)) = Response 200 audio_bytes →
            TTSService.path_given output_path = None →
            r = Some audio_bytes))
  ∧ TTSService.text_to_speech env text voice output_path st
    = TTSService.text_to_speech env sent voice output_path st.
Proof.
  intros Hav sent. subst sent.
  split; [apply submitted_text_prefix|].
  split; [apply submitted_text_length|].
  split.
  { intros Hlen. unfold TTSService.submitted_text.
    destruct (Z.ltb_spec 5000 (py_len text)); [lia|done]. }
  split.
  { intros Hlen. rewrite submitted_text_prefix. unfold py_len, py_prefix in *.
    rewrite length_take. lia. }
  split; [by apply text_to_speech_logs|].
  unfold TTSService.text_to_speech. by rewrite submitted_text_idempotent.
Qed.

Lemma narration_truncated_never_rejected_witness :
  let text := replicate 5000 120%N ++ lit "tail" in
  ∃ r st',
    TTSService.text_to_speech Sample.env text (Some (lit "seal")) None
      Sample.start = (Ok r, st')
    ∧ tts_calls st' = [(lit "EXAVITQu4vr4xnSDxMaL", replicate 5000 120%N)]
    ∧ r = Some [Byte.x49; Byte.x44; Byte.x33].
Proof.
  intros text.
  destruct (narration_truncated_never_rejected Sample.env text
              (Some (lit "seal")) None Sample.start)
    as (Hsent & _ & _ & _ & (r & st' & Hcall & Hlog & Hres) & _);
    [reflexivity|].
  exists r, st'. split; [exact Hcall|]. split.
  - rewrite Hlog, Hsent. subst text. unfold py_prefix.
    rewrite take_app_le by (rewrite length_replicate; lia).
    by rewrite take_replicate.
  - by eapply Hres.
Defined.

(** * Further properties of the pipeline *)

(** ** Font sizes and escaped text *)

Section Overlay.

Lemma font_size_tiers (s : pystr) :
  (py_len s < 30 → font_size_of s = 72)
  ∧ (30 ≤ py_len s < 50 → font_size_of s = 56)
  ∧ (50 ≤ py_len s → font_size_of s = 48).
Proof.
  unfold font_size_of.
  destruct (Z.ltb_spec (py_len s) 30), (Z.ltb_spec (py_len s) 50);
    repeat split; intros; first [done | lia].
Qed.

Lemma colon_pass_colons (s : pystr) i :
  py_replace Chars.colon colon_escape s !! i = Some Chars.colon →
  ∃ j, i = S j
       ∧ py_replace Chars.colon colon_escape s !! j = Some Chars.backslash.
Proof.
  revert i. induction s as [|c s IH]; intros i; [done|].
  cbn [py_replace].
  destruct (N.eqb_spec c Chars.colon) as [->|Hc].
  - destruct i as [|[|i]]; cbn.
    + discriminate.
    + intros _. by exists 0%nat.
    + intros (j & -> & Hj)%IH. by exists (S (S j)).
  - destruct i as [|i]; cbn.
    + by intros [= ->].
    + intros (j & -> & Hj)%IH. by exists (S j).
Qed.

Lemma py_replace_length old new (s : pystr) :
  length (py_replace old new s)
  = (length s - count_char old s + length new * count_char old s)%nat.
Proof.
  unfold count_char. induction s as [|c s IH]; [cbn; lia|].
  cbn [py_replace]. rewrite length_app, IH, filter_cons.
  assert (length (filter (λ x, x = old) s) ≤ length s)%nat
    by apply length_filter.
  destruct (N.eqb_spec c old) as [->|Hc].
  - rewrite decide_True by done. cbn [length]. lia.
  - rewrite decide_False by done. cbn [length]. lia.
Qed.

Lemma py_replace_absent old new (s : pystr) :
  old ∉ s → py_replace old new s = s.
Proof.
  induction s as [|c s IH]; [done|].
  intros Hnot. apply not_elem_of_cons in Hnot as [Hc Hs].
  cbn [py_replace]. destruct (N.eqb_spec c old) as [->|_]; [done|].
  cbn. by rewrite IH.
Qed.

Lemma quote_pass_colons (s : pystr) :
  count_char Chars.colon (py_replace Chars.quote quote_escape s)
  = count_char Chars.colon s.
Proof.
  unfold count_char. induction s as [|c s IH]; [done|].
  cbn [py_replace]. rewrite filter_app, length_app, IH, filter_cons.
  destruct (N.eqb_spec c Chars.quote) as [->|Hc].
  - by rewrite decide_False by done.
  - cbn [filter]. rewrite filter_cons, filter_nil.
    destruct (decide (c = Chars.colon)); cbn [length]; lia.
Qed.

End Overlay.

(** X1. The font size of a cue follows the length of the line as written,
    not of its escaped text: 72 below 30 code points, 56 from 30 to 49, 48
    from 50 on. *)
Theorem font_size_by_line_length (text_lines : list pystr) :
  text_lines ≠ [] →
  ∃ cues,
    build_cues (VStr <$> text_lines) 15 = Ok cues
    ∧ ∀ i s, text_lines !! i = Some s →
        ∃ c, cues !! i = Some c
          ∧ cue_text c = escape_line s
          ∧ (py_len s < 30 → font_size c = 72)
          ∧ (30 ≤ py_len s < 50 → font_size c = 56)
          ∧ (50 ≤ py_len s → font_size c = 48).
Proof.
  intros Hne. eexists. split; [by apply build_cues_strings|].
  intros i s Hs. rewrite list_lookup_imap, Hs. cbn.
  eexists. split; [reflexivity|]. split; [reflexivity|].
  apply font_size_tiers.
Qed.

Lemma font_size_by_line_length_witness :
  ∃ cues,
    build_cues (VStr <$> [replicate 29 Chars.quote; replicate 30 Chars.quote]) 15
    = Ok cues
    ∧ (font_size <$> cues) = [72; 56]
    ∧ (length ∘ cue_text <$> cues) = [116; 120]%nat.
Proof.
  destruct (font_size_by_line_length
              [replicate 29 Chars.quote; replicate 30 Chars.quote])
    as (cues & Hcues & _); [done|].
  exists cues. split; [exact Hcues|].
  vm_compute in Hcues. injection Hcues as <-. split; reflexivity.
Defined.

(** X2. In the escaped text of a line every colon comes right after a
    backslash: no colon of the line reaches the filter bare. *)
Theorem escaped_colons_follow_backslash (line : pystr) (i : nat) :
  escape_line line !! i = Some Chars.colon →
  ∃ j, i = S j ∧ escape_line line !! j = Some Chars.backslash.
Proof. apply colon_pass_colons. Qed.

Lemma escaped_colons_follow_backslash_witness :
  escape_line (lit "a:b") !! 2%nat = Some Chars.colon
  ∧ ∃ j, 2%nat = S j ∧ escape_line (lit "a:b") !! j = Some Chars.backslash.
Proof.
  split; [reflexivity|].
  apply (escaped_colons_follow_backslash (lit "a:b") 2). reflexivity.
Defined.

(** X3. Escaping adds three characters for each quote and one for each
    colon of the line, and a line with neither is left as it is
    (backslashes are not escaped). *)
Theorem escape_line_length (line : pystr) :
  length (escape_line line)
  = (length line + 3 * count_char Chars.quote line
     + count_char Chars.colon line)%nat
  ∧ (Chars.quote ∉ line → Chars.colon ∉ line → escape_line line = line).
Proof.
  split.
  - unfold escape_line. rewrite py_replace_length, quote_pass_colons.
    rewrite py_replace_length. cbn [length quote_escape colon_escape].
    assert (count_char Chars.quote line ≤ length line)%nat
      by apply length_filter.
    assert (count_char Chars.colon line
            ≤ length (py_replace Chars.quote quote_escape line))%nat.
    { rewrite <- quote_pass_colons. apply length_filter. }
    rewrite py_replace_length in H0. cbn [length quote_escape] in H0. lia.
  - intros Hq Hc. unfold escape_line.
    rewrite (py_replace_absent Chars.quote) by done.
    by rewrite py_replace_absent.
Qed.

Lemma escape_line_length_witness :
  length (escape_line (lit "it's 5:30")) = 13%nat
  ∧ escape_line (lit "back\slash") = lit "back\slash".
Proof.
  split.
  - rewrite (proj1 (escape_line_length (lit "it's 5:30"))). reflexivity.
  - apply (proj2 (escape_line_length (lit "back\slash")));
      vm_compute; intros H;
      repeat (inversion_clear H as [|? ? ? H']; rename H' into H).
Defined.

(** ** What the assembler can raise *)

Section AssemblerErrors.

Lemma text_cues_from_raises line_duration i text_lines e :
  text_cues_from line_duration i text_lines = Raise e → e = AttributeError.
Proof.
  revert i. induction text_lines as [|line rest IH]; intros i; [done|].
  cbn [text_cues_from].
  destruct (text_cue line_duration i line) as [c|e'] eqn:Hc; cbn [rbind].
  - destruct (text_cues_from line_duration (S i) rest) eqn:Hrest;
      cbn [rbind]; [done|]. intros [= <-]. by eapply IH.
  - intros [= <-]. destruct line; cbn in Hc; congruence.
Qed.

Lemma build_text_filter_raises env text_lines duration e :
  text_lines ≠ [] →
  _build_text_filter env text_lines duration = Raise e → e = AttributeError.
Proof.
  intros Hne. unfold _build_text_filter, build_cues, py_truediv.
  destruct (Z.eqb_spec (Z.of_nat (length text_lines)) 0) as [H0|_].
  { destruct text_lines; [done|]. cbn in H0. lia. }
  cbn [rbind].
  destruct (text_cues_from _ _ _) eqn:Hcues; cbn [rbind]; [done|].
  intros [= <-]. by eapply text_cues_from_raises.
Qed.

Lemma first_or_empty_raises body e :
  VideoService.first_or_empty body = Raise e → e = TypeError ∨ e = KeyError.
Proof.
  unfold VideoService.first_or_empty.
  destruct (truthy body) eqn:Ht; [|done].
  destruct body as [|b|z|f|[|c s]|[|x items]|entries]; cbn in Ht;
    try discriminate; try done; intros [= <-]; auto.
Qed.

Lemma text_lines_of_outcome env hook body repeat_phrase :
  match VideoService.text_lines_of env hook body repeat_phrase with
  | Ok text_lines => (2 ≤ length text_lines)%nat
  | Raise e => e = TypeError
  end.
Proof.
  destruct body; cbn; try done. rewrite length_app. cbn. lia.
Qed.

Lemma bg_video_of_raises bg_type e :
  VideoService.bg_video_of bg_type = Raise e → e = TypeError.
Proof.
  unfold VideoService.bg_video_of.
  destruct bg_type; cbn; try done; try by intros [= <-].
  repeat case_match; done.
Qed.

End AssemblerErrors.

(** Putting the command together leaves the state alone and raises only
    what the reads of the script raise. *)
Lemma assemble_command_raises env script audio_path output_path st :
  (VideoService.assemble_command env script audio_path output_path st).2 = st
  ∧ ∀ e,
      (VideoService.assemble_command env script audio_path output_path
         st).1 = Raise e →
      e = TypeError ∨ e = KeyError ∨ e = AttributeError.
Proof.
  unfold VideoService.assemble_command.
  destruct (VideoService.first_or_empty _) as [dflt|e0] eqn:Hfirst.
  2: { cbn. split; [done|]. intros e [= <-].
       apply first_or_empty_raises in Hfirst. tauto. }
  erewrite bind_ok; [|reflexivity].
  pose proof (text_lines_of_outcome env
                (dict_get script (lit "hook") (VStr (lit "Did you know?")))
                (dict_get script (lit "body")
                   (VList [VStr (lit "Learning content here")]))
                (dict_get script (lit "repeat_phrase") dflt)) as Hlines.
  destruct (VideoService.text_lines_of _ _ _ _) as [text_lines|e0].
  2: { cbn. split; [done|]. intros e [= <-]. auto. }
  erewrite bind_ok; [|reflexivity].
  destruct (_build_text_filter env text_lines 15) as [text_filter|e0]
    eqn:Hfilter.
  2: { cbn. split; [done|]. intros e [= <-].
       apply build_text_filter_raises in Hfilter; [auto|].
       intros ->. cbn in Hlines. lia. }
  erewrite bind_ok; [|reflexivity].
  destruct (VideoService.bg_video_of _) as [bg_video|e0] eqn:Hbg.
  2: { cbn. split; [done|]. intros e [= <-].
       apply bg_video_of_raises in Hbg. auto. }
  erewrite bind_ok; [|reflexivity].
  erewrite bind_ok; [|reflexivity].
  destruct audio_path as [[|c p]|]; cbn; by split.
Qed.

(** X4. The timing engine divides by the number of lines and so raises
    [ZeroDivisionError] on an empty list, but the assembler always hands it
    at least the hook and the repeat line: putting the command together
    leaves the state alone and can only raise [TypeError], [KeyError] or
    [AttributeError], whatever the script holds. *)
Theorem assembler_never_divides_by_zero (env : Env) :
  (∀ duration, _build_text_filter env [] duration = Raise ZeroDivisionError)
  ∧ ∀ script audio_path output_path st,
      (VideoService.assemble_command env script audio_path output_path st).2
      = st
      ∧ ∀ e,
          (VideoService.assemble_command env script audio_path output_path
             st).1 = Raise e →
          e = TypeError ∨ e = KeyError ∨ e = AttributeError.
Proof.
  split; [done|]. intros script audio_path output_path st.
  apply assemble_command_raises.
Qed.

(** ** Outcomes of [create_video] *)

Section CreateVideoOutcomes.

(** When the command is put together, the output path is its last
    argument. *)
Lemma assemble_command_last env script audio_path output_path st cmd st' :
  VideoService.assemble_command env script audio_path output_path st
  = (Ok cmd, st') →
  st' = st ∧ last cmd = Some output_path.
Proof.
  unfold VideoService.assemble_command.
  destruct (VideoService.first_or_empty _) as [dflt|e0]; [|done].
  erewrite bind_ok; [|reflexivity].
  destruct (VideoService.text_lines_of _ _ _ _) as [text_lines|e0]; [|done].
  erewrite bind_ok; [|reflexivity].
  destruct (_build_text_filter env text_lines 15) as [text_filter|e0]; [|done].
  erewrite bind_ok; [|reflexivity].
  destruct (VideoService.bg_video_of _) as [bg_video|e0]; [|done].
  erewrite bind_ok; [|reflexivity].
  erewrite bind_ok; [|reflexivity].
  destruct audio_path as [[|c p]|]; cbn; intros [= <- <-];
    (split; [done|]); repeat case_bool_decide;
    rewrite !last_cons, last_app; reflexivity.
Qed.

(** [_assemble_video] returns only after the toolchain ran once on the
    command and exited with 0; it writes no file itself. *)
Lemma assemble_video_returns env script audio_path output_path st u st' :
  VideoService._assemble_video env script audio_path output_path st
  = (Ok u, st') →
  ∃ cmd stderr,
    st' = log_subprocess_call cmd st
    ∧ subprocess_run env cmd (length (subprocess_calls st))
      = CompletedProcess 0 stderr
    ∧ last cmd = Some output_path.
Proof.
  unfold VideoService._assemble_video.
  destruct (VideoService.assemble_command env script audio_path output_path st)
    as [[cmd|e] st1] eqn:Hcmd.
  2: { by rewrite (bind_raise _ _ _ _ _ Hcmd). }
  apply assemble_command_last in Hcmd as Hshape. destruct Hshape as [-> Hlast].
  rewrite (bind_ok _ _ _ _ _ Hcmd). erewrite bind_ok; [|reflexivity].
  destruct (subprocess_run env cmd _) as [code stderr|] eqn:Hrun; [|done].
  destruct (Z.eqb_spec code 0) as [->|]; cbn; [|done].
  intros [= _ <-]. by exists cmd, stderr.
Qed.

Lemma assemble_video_files env script audio_path output_path st :
  files (VideoService._assemble_video env script audio_path output_path st).2
  = files st.
Proof.
  unfold VideoService._assemble_video.
  pose proof (assemble_command_raises env script audio_path output_path st)
    as [Hst _].
  destruct (VideoService.assemble_command env script audio_path output_path st)
    as [[cmd|e] st1] eqn:Hcmd; cbn in Hst; subst st1.
  2: { by rewrite (bind_raise _ _ _ _ _ Hcmd). }
  rewrite (bind_ok _ _ _ _ _ Hcmd). erewrite bind_ok; [|reflexivity].
  destruct (subprocess_run env cmd _) as [code stderr|]; [|done].
  by destruct (negb (code =? 0)).
Qed.

Lemma media_is_not_placeholder output_name :
  media_path output_name ≠ placeholder_path output_name.
Proof.
  unfold media_path, placeholder_path, VideoService.path_join.
  intros H. do 3 apply app_inv_head in H. discriminate.
Qed.

End CreateVideoOutcomes.

(** The two ways [create_video] ends. *)
Lemma create_video_two_ways env script audio_path output_name st :
  ∃ path st',
    VideoService.create_video env script audio_path output_name st
    = (Ok (Some path), st')
    ∧ ((path = placeholder_path output_name
        ∧ files st'
          = <[placeholder_path output_name :=
                placeholder_file script output_name]> (files st))
       ∨ (path = media_path output_name
          ∧ files st' = files st
          ∧ ∃ cmd rest stderr,
              subprocess_calls st' = cmd :: rest
              ∧ subprocess_run env cmd (length rest) = CompletedProcess 0 stderr
              ∧ last cmd = Some (media_path output_name))).
Proof.
  destruct (is_available_returns env st) as (b & st1 & Hav & _).
  pose proof (is_available_files env st) as Hfiles1. rewrite Hav in Hfiles1.
  cbn in Hfiles1.
  unfold VideoService.create_video. rewrite (bind_ok _ _ _ _ _ Hav).
  destruct b; cbn [negb].
  - unfold try_except. fold (media_path output_name).
    pose proof (assemble_video_files env script audio_path
                  (media_path output_name) st1) as Hfiles2.
    unfold bind at 1.
    destruct (VideoService._assemble_video env script audio_path
                (media_path output_name) st1) as [[u|e] st2] eqn:Hasm;
      cbn in Hfiles2.
    + apply assemble_video_returns in Hasm as (cmd & stderr & -> & Hrun & Hlast).
      eexists _, _. split; [reflexivity|]. right.
      split; [done|]. split; [by rewrite <- Hfiles1|].
      by exists cmd, (subprocess_calls st1), stderr.
    + eexists _, _. split; [reflexivity|]. left. split; [done|].
      cbn. by rewrite Hfiles2, Hfiles1.
  - eexists _, _. split; [reflexivity|]. left. split; [done|].
    cbn. by rewrite Hfiles1.
Qed.

(** X5. [create_video] ends in one of two ways.  Either it returns the
    placeholder path, and then the placeholder file has just been written
    with the whole script and the output name; or it returns the media
    path, and then it wrote nothing itself and its last act was one run of
    the toolchain that exited with 0 on a command ending in that path. *)
Theorem create_video_outcome (env : Env) (script : pydict)
    (audio_path : option pystr) (output_name : pystr) (st : State) :
  ∃ path st',
    VideoService.create_video env script audio_path output_name st
    = (Ok (Some path), st')
    ∧ ((path = placeholder_path output_name
        ∧ files st'
          = <[placeholder_path output_name :=
                placeholder_file script output_name]> (files st))
       ∨ (path = media_path output_name
          ∧ files st' = files st
          ∧ ∃ cmd rest stderr,
              subprocess_calls st' = cmd :: rest
              ∧ subprocess_run env cmd (length rest) = CompletedProcess 0 stderr
              ∧ last cmd = Some (media_path output_name))).
Proof. apply create_video_two_ways. Qed.

(** ** The memo of the toolchain probe *)

Create HintDb memo.

Section Memo.

#[local] Instance memo_kept_preorder : PreOrder memo_kept.
Proof.
  split.
  - by intros st b.
  - intros st1 st2 st3 H12 H23 b Hb. by apply H23, H12.
Qed.

Ltac kept_step :=
  lazymatch goal with
  | |- preserves _ (ret _) => refine (preserves_ret _ _)
  | |- preserves _ (raise _) => refine (preserves_raise _ _)
  | |- preserves _ (lift _) => refine (preserves_lift _ _)
  | |- preserves _ get_state => refine (preserves_get_state _)
  | |- preserves _ (path_exists _) => refine (preserves_path_exists _ _)
  | |- preserves _ (bind _ _) =>
      refine (preserves_bind _ _ _ _ _); [|intros ?]
  | |- preserves _ (try_except _ _) =>
      refine (preserves_try_except _ _ _ _ _); [|intros ?]
  | |- preserves memo_kept (modify _) =>
      refine (preserves_modify _ _ _); intros ? ? ?; assumption
  | |- preserves _ (match _ with _ => _ end) => case_match
  | |- preserves _ (let _ := _ in _) => cbv zeta
  | |- preserves _ _ => solve [auto with memo]
  end.

Lemma memo_is_available env : preserves memo_kept (VideoService.is_available env).
Proof.
  intros st b Hb. by rewrite (is_available_cached env st b Hb).
Qed.

Lemma memo_run_subprocess env cmd : preserves memo_kept (run_subprocess env cmd).
Proof. by intros st b Hb. Qed.

Lemma memo_write_file path data : preserves memo_kept (write_file path data).
Proof. by intros st b Hb. Qed.

Lemma memo_uuid4 env : preserves memo_kept (uuid4 env).
Proof. by intros st b Hb. Qed.

#[local] Hint Resolve memo_is_available memo_run_subprocess memo_write_file
  memo_uuid4 : memo.

Lemma memo_text_to_speech env text voice output_path :
  preserves memo_kept (TTSService.text_to_speech env text voice output_path).
Proof. unfold TTSService.text_to_speech. repeat kept_step. Qed.

Lemma memo_generate_video_script env fact vibe :
  preserves memo_kept (AIService.generate_video_script env fact vibe).
Proof. unfold AIService.generate_video_script. repeat kept_step. Qed.

Lemma memo_create_video env script audio_path output_name :
  preserves memo_kept
    (VideoService.create_video env script audio_path output_name).
Proof.
  unfold VideoService.create_video, VideoService._create_placeholder_video,
    VideoService._assemble_video, VideoService.assemble_command.
  repeat kept_step.
Qed.

#[local] Hint Resolve memo_text_to_speech memo_generate_video_script
  memo_create_video : memo.

Lemma memo_run_op env o : ∀ st, memo_kept st (run_op env o st).
Proof.
  destruct o as [request|request|video_id|facts fs drawn]; unfold run_op.
  - change (preserves memo_kept (generate_video env request)).
    unfold generate_video. repeat kept_step.
  - change (preserves memo_kept (render_video env request)).
    unfold render_video, render_with_ffmpeg, render_without_ffmpeg.
    repeat kept_step.
  - change (preserves memo_kept (get_video video_id)).
    unfold get_video. repeat kept_step.
  - by intros st b Hb.
Qed.

Lemma memo_run_ops env ops : ∀ st, memo_kept st (run_ops env ops st).
Proof.
  induction ops as [|o ops IH]; intros st; [done|].
  cbn. etrans; [apply (memo_run_op env o)|apply IH].
Qed.

End Memo.

(** X6. The toolchain is probed once per process.  After [is_available]
    has answered, it gives the same answer after any run of requests
    without running a process or changing the state, even if the
    environment has changed in between (a toolchain installed later is not
    noticed). *)
Theorem toolchain_probe_memoised (env env' : Env) (st st1 : State) (b : bool)
    (ops : list op) :
  VideoService.is_available env st = (Ok b, st1) →
  VideoService.is_available env' (run_ops env' ops st1)
  = (Ok b, run_ops env' ops st1).
Proof.
  intros Hav. apply is_available_cached, (memo_run_ops env' ops st1).
  destruct (is_available_returns env st) as (b' & st1' & Hav' & Hmemo & _).
  rewrite Hav in Hav'. by injection Hav' as -> ->.
Qed.

Lemma toolchain_probe_memoised_witness :
  VideoService.is_available Sample.env_ffmpeg
    (run_ops Sample.env_ffmpeg [OpRender Sample.render_request]
       (VideoService.is_available Sample.env Sample.generated).2)
  = (Ok false,
     run_ops Sample.env_ffmpeg [OpRender Sample.render_request]
       (VideoService.is_available Sample.env Sample.generated).2).
Proof.
  apply (toolchain_probe_memoised Sample.env Sample.env_ffmpeg
           Sample.generated).
  apply pair_eta_fst. vm_compute. reflexivity.
Defined.

(** ** The narration adapter *)

(** X7. The voice selector picks one of two voice identities: [penguin]
    gives the educational voice, and every other selector, [seal], an
    unknown name or none at all, gives the warm one. *)
Theorem voice_selector_falls_back (voice : option pystr) :
  (voice = Some (lit "penguin")
   ∧ TTSService.voice_id_of voice = lit "pNInz6obpgDQGcFmaJgB")
  ∨ (voice ≠ Some (lit "penguin")
     ∧ TTSService.voice_id_of voice = lit "EXAVITQu4vr4xnSDxMaL").
Proof.
  destruct voice as [v|]; [|by right].
  unfold TTSService.voice_id_of, TTSService.VOICES. cbn.
  destruct (decide (lit "seal" = v)) as [<-|Hseal]; [by right|].
  destruct (decide (lit "penguin" = v)) as [<-|Hpenguin]; cbn; [by left|].
  right. split; [congruence|done].
Qed.

(** What [text_to_speech] returns and what it writes. *)
Lemma text_to_speech_cases env text voice output_path st :
  ∃ r st',
    TTSService.text_to_speech env text voice output_path st = (Ok r, st')
    ∧ match r with
      | Some audio_bytes =>
          TTSService.is_available env = true
          ∧ elevenlabs_post env (TTSService.voice_id_of voice)
              (TTSService.submitted_text text) (length (tts_calls st))
            = Response 200 audio_bytes
          ∧ files st'
            = match TTSService.path_given output_path with
              | Some path => <[path := AudioFile audio_bytes]> (files st)
              | None => files st
              end
      | None => files st' = files st
      end
    ∧ (TTSService.is_available env = false → st' = st).
Proof.
  unfold TTSService.text_to_speech.
  destruct (TTSService.is_available env) eqn:Hav; cbn [negb].
  2: { by eexists _, _. }
  unfold try_except, bind, get_state, modify. cbn.
  destruct (elevenlabs_post _ _ _ _) as [code bytes|] eqn:Hpost; cbn.
  2: { by eexists _, _. }
  destruct (Z.eqb_spec code 200) as [->|Hcode].
  2: { by eexists _, _. }
  destruct (TTSService.path_given output_path) as [path|].
  - case_bool_decide; cbn; by eexists _, _.
  - by eexists _, _.
Qed.

(** X8. [text_to_speech] never raises.  It returns audio bytes only when
    the service is configured and the provider answered 200 with those
    bytes for the submitted text, and then the file at the given path holds
    exactly them; when it returns nothing, no file has been written; and
    without an API key nothing at all happens, no request included. *)
Theorem text_to_speech_outcome (env : Env) (text : pystr)
    (voice output_path : option pystr) (st : State) :
  ∃ r st',
    TTSService.text_to_speech env text voice output_path st = (Ok r, st')
    ∧ match r with
      | Some audio_bytes =>
          TTSService.is_available env = true
          ∧ elevenlabs_post env (TTSService.voice_id_of voice)
              (TTSService.submitted_text text) (length (tts_calls st))
            = Response 200 audio_bytes
          ∧ files st'
            = match TTSService.path_given output_path with
              | Some path => <[path := AudioFile audio_bytes]> (files st)
              | None => files st
              end
      | None => files st' = files st
      end
    ∧ (TTSService.is_available env = false → st' = st).
Proof. apply text_to_speech_cases. Qed.

(** ** Rendering and the download endpoints *)

Section RenderFiles.

(** A render that returns went through one of the two branches and stored
    what the branch returned. *)
Lemma render_video_returns_inv env request st r st' :
  render_video env request st = (Ok r, st') →
  ∃ video narration b st1 st3,
    generated_videos st !! VideoRenderRequest.video_id request = Some video
    ∧ narration_of env (Video.script video) = Ok narration
    ∧ VideoService.is_available env st = (Ok b, st1)
    ∧ (if b
       then render_with_ffmpeg env request (Video.script video) narration
              (processing_result env request
                 (uuid4_stream env (uuid_count st)) narration b)
       else render_without_ffmpeg env request narration
              (processing_result env request
                 (uuid4_stream env (uuid_count st)) narration b))
        (set_uuid_count (S (uuid_count st1)) st1) = (Ok r, st3)
    ∧ st' = set_rendered_videos
              (insert (uuid4_stream env (uuid_count st)) r) st3
    ∧ files st1 = files st.
Proof.
  intros Hrender.
  destruct (generated_videos st !! VideoRenderRequest.video_id request)
    as [video|] eqn:Hvideo.
  2: { by rewrite render_video_unknown in Hrender. }
  destruct (narration_of env (Video.script video)) as [narration|e] eqn:Hn.
  2: { destruct (render_video_bad_narration env request st video e Hvideo Hn)
         as (st'' & Hraise & _). by rewrite Hraise in Hrender. }
  destruct (is_available_returns env st) as (b & st1 & Hav & Hcache & _).
  pose proof (framed_is_available env st) as Hfr1. rewrite Hav in Hfr1.
  cbn in Hfr1. destruct Hfr1 as (_ & _ & _ & Hu1 & _).
  pose proof (is_available_files env st) as Hfiles1. rewrite Hav in Hfiles1.
  cbn in Hfiles1.
  exists video, narration, b, st1.
  revert Hrender. unfold render_video. cbv zeta.
  unfold bind at 1, get_state. rewrite Hvideo.
  rewrite (bind_ok _ _ _ _ _ Hav).
  erewrite bind_ok; [|reflexivity].
  rewrite Hn. erewrite bind_ok; [|reflexivity].
  erewrite (bind_ok (VideoService.is_available env));
    [|by apply is_available_cached].
  rewrite Hu1. fold (processing_result env request
                       (uuid4_stream env (uuid_count st)) narration b).
  set (branch := if b then _ else _).
  unfold bind at 1.
  destruct (branch _) as [[r0|e] st3] eqn:Hbranch; [|done].
  cbn. intros [= <- <-]. exists st3. rewrite <- Hu1. by repeat split.
Qed.

Lemma create_video_other_files env script audio_path output_name st p :
  p ≠ placeholder_path output_name →
  files (VideoService.create_video env script audio_path output_name st).2 !! p
  = files st !! p.
Proof.
  intros Hp.
  destruct (create_video_two_ways env script audio_path output_name st)
    as (path & st' & Hcv & [(_ & Hfiles)|(_ & Hfiles & _)]);
    rewrite Hcv; cbn [snd]; rewrite Hfiles; [|done].
  by rewrite lookup_insert_ne.
Qed.

Lemma endswith_app_same_length (suffix s t : pystr) :
  length t = length suffix →
  py_endswith suffix (s ++ t) = bool_decide (t = suffix).
Proof.
  intros Hlen. unfold py_endswith. rewrite length_app, Hlen.
  replace (length s + length suffix - length suffix)%nat with (length s)
    by lia.
  by rewrite drop_app_length.
Qed.

Lemma media_path_is_mp4 output_name :
  py_endswith (lit ".mp4") (media_path output_name) = true.
Proof.
  unfold media_path, VideoService.path_join. rewrite !app_assoc.
  by rewrite endswith_app_same_length.
Qed.

Lemma placeholder_path_is_not_mp4 output_name :
  py_endswith (lit ".mp4") (placeholder_path output_name) = false.
Proof.
  unfold placeholder_path, VideoService.path_join.
  change (lit "_pending.json") with (lit "_pending." ++ lit "json").
  rewrite !app_assoc. by rewrite endswith_app_same_length.
Qed.

(** What the branch with a toolchain leaves on disk for its result. *)
Lemma render_with_ffmpeg_files env request script narration result st r st' :
  render_with_ffmpeg env request script narration result st = (Ok r, st') →
  RenderResult.render_id r = RenderResult.render_id result
  ∧ RenderResult.narration_text r = RenderResult.narration_text result
  ∧ (∃ path, RenderResult.video_path r = Some path
       ∧ (path = placeholder_path (RenderResult.render_id result)
          ∧ RenderResult.status r = lit "pending_ffmpeg"
          ∧ files st' !! path
            = Some (placeholder_file script (RenderResult.render_id result))
          ∨ path = media_path (RenderResult.render_id result)
            ∧ RenderResult.status r = lit "complete"))
  ∧ (∀ p, RenderResult.audio_path r = Some p →
       p = audio_path_of (RenderResult.render_id result)
       ∧ RenderResult.audio_generated r = Some true
       ∧ ∃ audio_bytes, audio_bytes ≠ []
           ∧ files st' !! p = Some (AudioFile audio_bytes)).
Proof.
  unfold render_with_ffmpeg.
  set (rid := RenderResult.render_id result).
  set (audio := if wants_audio env request then _ else _).
  assert (∃ a st1, audio st = (Ok a, st1)
            ∧ (a.2 = Some true →
               a.1 = Some (audio_path_of rid)
               ∧ ∃ audio_bytes, audio_bytes ≠ []
                   ∧ files st1 !! audio_path_of rid
                     = Some (AudioFile audio_bytes)))
    as (a & st1 & Ha & Haudio).
  { subst audio. destruct (wants_audio env request).
    2: { eexists _, _. split; [reflexivity|]. done. }
    destruct (text_to_speech_cases env narration
                (VideoRenderRequest.mascot_voice request)
                (Some (audio_path_of rid)) st)
      as (bytes & st1 & Htts & Hbytes & _).
    rewrite (bind_ok _ _ _ _ _ Htts).
    eexists _, _. split; [reflexivity|]. cbn.
    destruct bytes as [[|b0 bytes]|]; cbn; try done.
    intros _. split; [done|]. destruct Hbytes as (_ & _ & Hfiles).
    rewrite path_given_audio_path in Hfiles.
    exists (b0 :: bytes). split; [done|]. rewrite Hfiles.
    apply lookup_insert_eq. }
  rewrite (bind_ok _ _ _ _ _ Ha). cbv zeta.
  destruct (create_video_two_ways env script a.1 rid st1)
    as (path & st2 & Hcv & Hout).
  pose proof (create_video_other_files env script a.1 rid st1
                (audio_path_of rid)) as Hkeep.
  rewrite Hcv in Hkeep. cbn in Hkeep.
  rewrite (bind_ok _ _ _ _ _ Hcv). intros [= <- <-]. cbn.
  split; [done|]. split; [done|]. split.
  - exists path. split; [done|].
    destruct Hout as [(-> & Hfiles)|(-> & _)]; [left|right].
    + split; [done|]. split; [by rewrite placeholder_path_is_not_mp4|].
      by rewrite Hfiles, lookup_insert_eq.
    + by rewrite media_path_is_mp4.
  - intros p. destruct a.2 as [[|]|]; try done.
    destruct (Haudio eq_refl) as (Ha1 & bytes & Hne & Hfile).
    rewrite Ha1. intros [= <-]. split; [done|]. split; [done|].
    exists bytes. split; [done|].
    rewrite Hkeep; [done|]. intros Heq. symmetry in Heq.
    by apply placeholder_is_not_audio in Heq.
Qed.

End RenderFiles.

Section Downloads.

Lemma render_without_ffmpeg_files env request narration result st r st' :
  render_without_ffmpeg env request narration result st = (Ok r, st') →
  RenderResult.render_id r = RenderResult.render_id result
  ∧ RenderResult.narration_text r = RenderResult.narration_text result
  ∧ RenderResult.video_path r = RenderResult.video_path result
  ∧ (∀ p, RenderResult.audio_path r = Some p →
       p = audio_path_of (RenderResult.render_id result)
       ∧ RenderResult.audio_generated r = Some true
       ∧ ∃ audio_bytes, audio_bytes ≠ []
           ∧ files st' !! p = Some (AudioFile audio_bytes)).
Proof.
  unfold render_without_ffmpeg.
  set (rid := RenderResult.render_id result).
  destruct (wants_audio env request).
  2: { cbn. intros [= <- <-]. by cbn. }
  destruct (text_to_speech_cases env narration
              (VideoRenderRequest.mascot_voice request)
              (Some (audio_path_of rid)) st)
    as (bytes & st1 & Htts & Hbytes & _).
  unfold bind at 1. rewrite (bind_ok _ _ _ _ _ Htts). cbn.
  intros [= <- <-]. cbn.
  split; [done|]. split; [done|]. split; [done|].
  intros p. destruct bytes as [[|b0 bytes]|]; cbn; try done.
  intros [= <-]. split; [done|]. split; [done|].
  destruct Hbytes as (_ & _ & Hfiles).
  rewrite path_given_audio_path in Hfiles.
  exists (b0 :: bytes). split; [done|]. rewrite Hfiles.
  apply lookup_insert_eq.
Qed.

Lemma audio_path_of_cons render_id :
  audio_path_of render_id
  = 100%N :: (lit "ata/audio/" ++ render_id ++ lit ".mp3").
Proof. reflexivity. Qed.

Lemma placeholder_path_cons output_name :
  placeholder_path output_name
  = 100%N :: (lit "ata/videos" ++ [Chars.slash] ++ output_name
              ++ lit "_pending.json").
Proof. reflexivity. Qed.

(** What a returned render left in the store and on disk. *)
Lemma render_video_returned env request st r st' :
  render_video env request st = (Ok r, st') →
  ∃ video narration b st1,
    generated_videos st !! VideoRenderRequest.video_id request = Some video
    ∧ narration_of env (Video.script video) = Ok narration
    ∧ VideoService.is_available env st = (Ok b, st1)
    ∧ RenderResult.render_id r = uuid4_stream env (uuid_count st)
    ∧ rendered_videos st' !! RenderResult.render_id r = Some r
    ∧ RenderResult.narration_text r = narration_preview narration
    ∧ (∀ p, RenderResult.audio_path r = Some p →
         p = audio_path_of (RenderResult.render_id r)
         ∧ RenderResult.audio_generated r = Some true
         ∧ ∃ audio_bytes, audio_bytes ≠ []
             ∧ files st' !! p = Some (AudioFile audio_bytes))
    ∧ (if b then
         RenderResult.video_path r
         = Some (placeholder_path (RenderResult.render_id r))
         ∧ RenderResult.status r = lit "pending_ffmpeg"
         ∧ files st' !! placeholder_path (RenderResult.render_id r)
           = Some (placeholder_file (Video.script video)
                     (RenderResult.render_id r))
         ∨ RenderResult.video_path r
           = Some (media_path (RenderResult.render_id r))
           ∧ RenderResult.status r = lit "complete"
       else RenderResult.video_path r = None).
Proof.
  intros (video & narration & b & st1 & st3 & Hvideo & Hn & Hav & Hbranch
          & -> & _)%render_video_returns_inv.
  exists video, narration, b, st1.
  split; [done|]. split; [done|]. split; [done|].
  destruct b.
  - apply render_with_ffmpeg_files in Hbranch
      as (Hid & Hnarr & (path & Hpath & Hcases) & Haudio).
    cbn in Hid, Hnarr, Hcases, Haudio. rewrite Hid.
    split; [done|]. split; [apply lookup_insert_eq|]. split; [done|].
    split; [exact Haudio|]. rewrite Hpath.
    destruct Hcases as [(-> & ? & ?)|(-> & ?)]; [by left|by right].
  - apply render_without_ffmpeg_files in Hbranch
      as (Hid & Hnarr & Hpath & Haudio).
    cbn in Hid, Hnarr, Hpath, Haudio. rewrite Hid.
    split; [done|]. split; [apply lookup_insert_eq|]. split; [done|].
    split; [exact Haudio|done].
Qed.

Lemma download_audio_stored render_id st render :
  rendered_videos st !! render_id = Some render →
  download_audio render_id st
  = match RenderResult.audio_path render with
    | Some (c :: p) =>
        if bool_decide (is_Some (files st !! (c :: p))) then
          (Ok {| FileResponse.path := c :: p;
                 FileResponse.media_type := lit "audio/mpeg";
                 FileResponse.filename :=
                   lit "dewi_narration_" ++ py_prefix 8 render_id
                   ++ lit ".mp3" |}, st)
        else (Raise (HTTPException 404 (lit "Audio not generated")), st)
    | _ => (Raise (HTTPException 404 (lit "Audio not generated")), st)
    end.
Proof.
  intros H. unfold download_audio, bind, get_state, path_exists. cbn.
  rewrite H. by repeat case_match.
Qed.

Lemma download_rendered_video_stored render_id st render :
  rendered_videos st !! render_id = Some render →
  download_rendered_video render_id st
  = match RenderResult.video_path render with
    | Some (c :: p) =>
        if bool_decide (is_Some (files st !! (c :: p))) then
          (Ok {| FileResponse.path := c :: p;
                 FileResponse.media_type := lit "video/mp4";
                 FileResponse.filename :=
                   lit "dewi_video_" ++ py_prefix 8 render_id
                   ++ lit ".mp4" |}, st)
        else (Raise (HTTPException 404 (lit "Video file not ready")), st)
    | _ => (Raise (HTTPException 404 (lit "Video file not ready")), st)
    end.
Proof.
  intros H. unfold download_rendered_video, bind, get_state, path_exists. cbn.
  rewrite H. by repeat case_match.
Qed.

End Downloads.

(** X9. The narration of a render can be downloaded exactly when the render
    recorded an audio path: then the file is on disk, holds audio bytes that
    are not empty, and [download_audio] serves it as [audio/mpeg]; when no
    audio path was recorded, [download_audio] answers 404. *)
Theorem audio_download_after_render (env : Env)
    (request : VideoRenderRequest.t) (st st' : State) (r : RenderResult.t) :
  render_video env request st = (Ok r, st') →
  let render_id := RenderResult.render_id r in
  match RenderResult.audio_path r with
  | Some p =>
      p = audio_path_of render_id
      ∧ (∃ audio_bytes, audio_bytes ≠ []
           ∧ files st' !! p = Some (AudioFile audio_bytes))
      ∧ download_audio render_id st'
        = (Ok {| FileResponse.path := p;
                 FileResponse.media_type := lit "audio/mpeg";
                 FileResponse.filename :=
                   lit "dewi_narration_" ++ py_prefix 8 render_id
                   ++ lit ".mp3" |}, st')
  | None =>
      download_audio render_id st'
      = (Raise (HTTPException 404 (lit "Audio not generated")), st')
  end.
Proof.
  intros (video & narration & b & st1 & _ & _ & _ & _ & Hstored & _ & Haudio
          & _)%render_video_returned. cbv zeta.
  rewrite (download_audio_stored _ _ _ Hstored).
  destruct (RenderResult.audio_path r) as [p|]; [|done].
  destruct (Haudio p eq_refl) as (-> & _ & bytes & Hne & Hfile).
  split; [done|]. split; [by exists bytes|].
  rewrite audio_path_of_cons in Hfile |- *.
  by rewrite bool_decide_eq_true_2 by eauto.
Qed.

Lemma audio_download_after_render_witness :
  let run :=
    render_video Sample.env Sample.render_request Sample.generated in
  ∃ r,
    run.1 = Ok r
    ∧ RenderResult.audio_path r = Some (lit "data/audio/aa.mp3")
    ∧ download_audio (RenderResult.render_id r) run.2
      = (Ok {| FileResponse.path := lit "data/audio/aa.mp3";
               FileResponse.media_type := lit "audio/mpeg";
               FileResponse.filename :=
                 lit "dewi_narration_" ++ py_prefix 8 (lit "aa")
                 ++ lit ".mp3" |}, run.2).
Proof.
  intros run.
  assert (∃ r, run.1 = Ok r
               ∧ RenderResult.audio_path r = Some (lit "data/audio/aa.mp3")
               ∧ RenderResult.render_id r = lit "aa") as (r & Hr & Hp & Hid).
  { vm_compute. eexists. split; [reflexivity|]. split; reflexivity. }
  exists r. split; [done|]. split; [done|].
  pose proof (audio_download_after_render Sample.env Sample.render_request
                Sample.generated run.2 r (pair_eta_fst _ _ Hr)) as H.
  cbv zeta in H. rewrite Hp, Hid in H. rewrite Hid.
  by destruct H as (_ & _ & Hdl).
Defined.

(** X10. What [download_rendered_video] does after a render that returned.
    A render made without the toolchain has no video path, so the download
    answers 404.  A render made with the toolchain whose assembly failed is
    [pending_ffmpeg], yet its video path is the placeholder, which exists:
    the download serves that JSON placeholder under the media type
    [video/mp4]. *)
Theorem video_download_after_render (env : Env)
    (request : VideoRenderRequest.t) (st st1 st' : State) (b : bool)
    (r : RenderResult.t) :
  VideoService.is_available env st = (Ok b, st1) →
  render_video env request st = (Ok r, st') →
  let render_id := RenderResult.render_id r in
  (b = false →
   download_rendered_video render_id st'
   = (Raise (HTTPException 404 (lit "Video file not ready")), st'))
  ∧ (b = true → RenderResult.status r = lit "pending_ffmpeg" →
     download_rendered_video render_id st'
     = (Ok {| FileResponse.path := placeholder_path render_id;
              FileResponse.media_type := lit "video/mp4";
              FileResponse.filename :=
                lit "dewi_video_" ++ py_prefix 8 render_id ++ lit ".mp4" |},
        st')).
Proof.
  intros Hav (video & narration & b' & st1' & _ & _ & Hav' & _ & Hstored & _
              & _ & Hvideo)%render_video_returned. cbv zeta.
  rewrite Hav in Hav'. injection Hav' as <- <-.
  rewrite (download_rendered_video_stored _ _ _ Hstored).
  split; intros ->.
  - by rewrite Hvideo.
  - intros Hstatus.
    destruct Hvideo as [(Hpath & _ & Hfile)|(_ & Hcomplete)].
    2: { rewrite Hcomplete in Hstatus. discriminate. }
    rewrite Hpath. rewrite placeholder_path_cons in Hfile |- *.
    by rewrite bool_decide_eq_true_2 by eauto.
Qed.

Lemma video_download_after_render_witness :
  let run :=
    render_video Sample2.env_mux_fails Sample.render_request
      Sample2.generated in
  ∃ r,
    run.1 = Ok r
    ∧ RenderResult.status r = lit "pending_ffmpeg"
    ∧ download_rendered_video (RenderResult.render_id r) run.2
      = (Ok {| FileResponse.path := placeholder_path (lit "aa");
               FileResponse.media_type := lit "video/mp4";
               FileResponse.filename :=
                 lit "dewi_video_" ++ py_prefix 8 (lit "aa") ++ lit ".mp4" |},
         run.2).
Proof.
  intros run.
  assert (∃ r, run.1 = Ok r
               ∧ RenderResult.status r = lit "pending_ffmpeg"
               ∧ RenderResult.render_id r = lit "aa")
    as (r & Hr & Hstatus & Hid).
  { vm_compute. eexists. split; [reflexivity|]. split; reflexivity. }
  exists r. split; [done|]. split; [done|].
  destruct (video_download_after_render Sample2.env_mux_fails
              Sample.render_request Sample2.generated
              (VideoService.is_available Sample2.env_mux_fails
                 Sample2.generated).2 run.2 true r) as [_ Hdl].
  - apply pair_eta_fst. vm_compute. reflexivity.
  - by apply pair_eta_fst.
  - specialize (Hdl eq_refl Hstatus). cbv zeta in Hdl.
    by rewrite Hid in Hdl |- *.
Defined.

(** X11. The narration text kept in a render result is a preview: the whole
    narration when it has at most 200 code points, otherwise its first 200
    followed by three dots, so never more than 203. *)
Theorem narration_preview_bounded (env : Env)
    (request : VideoRenderRequest.t) (st st' : State) (r : RenderResult.t) :
  render_video env request st = (Ok r, st') →
  ∃ video narration,
    generated_videos st !! VideoRenderRequest.video_id request = Some video
    ∧ narration_of env (Video.script video) = Ok narration
    ∧ py_len (RenderResult.narration_text r) ≤ 203
    ∧ (py_len narration ≤ 200 → RenderResult.narration_text r = narration)
    ∧ (200 < py_len narration →
       RenderResult.narration_text r = py_prefix 200 narration ++ lit "...").
Proof.
  intros (video & narration & b & st1 & Hvideo & Hn & _ & _ & _ & Hnarr
          & _)%render_video_returned.
  exists video, narration. split; [done|]. split; [done|].
  rewrite Hnarr. unfold narration_preview, py_len, py_prefix.
  destruct (Z.ltb_spec 200 (Z.of_nat (length narration))) as [Hlong|Hshort].
  - split; [|split; [intros; lia|done]].
    rewrite length_app, length_take.
    change (length (lit "...")) with 3%nat. lia.
  - split; [lia|]. split; [done|intros; lia].
Qed.

Lemma narration_preview_bounded_witness :
  ∃ r st',
    render_video Sample.env Sample.render_request Sample.generated = (Ok r, st')
    ∧ RenderResult.narration_text r = Sample.narration.
Proof.
  destruct (render_video Sample.env Sample.render_request Sample.generated)
    as [[r|e] st'] eqn:Hr; [|by vm_compute in Hr].
  destruct (narration_preview_bounded Sample.env Sample.render_request
              Sample.generated st' r Hr)
    as (video & narration & Hvideo & Hn & _ & Hshort & _).
  exists r, st'. split; [done|].
  assert (narration = Sample.narration) as ->.
  { assert (video = Sample.video) as ->.
    { vm_compute in Hvideo. by injection Hvideo as <-. }
    vm_compute in Hn. by injection Hn as <-. }
  apply Hshort. by vm_compute.
Defined.

(** X12. A render request never touches the facts, the video store or the
    script generator, whether it returns or raises.  It adds one entry to
    the render store, under a fresh identifier, exactly when it returns;
    when it raises (unknown video, narration that cannot be joined) the
    render store is as before. *)
Theorem render_touches_render_store_only (env : Env)
    (request : VideoRenderRequest.t) (st : State) :
  let st' := (render_video env request st).2 in
  extracted_facts st' = extracted_facts st
  ∧ generated_videos st' = generated_videos st
  ∧ script_calls st' = script_calls st
  ∧ match (render_video env request st).1 with
    | Ok r =>
        RenderResult.render_id r = uuid4_stream env (uuid_count st)
        ∧ rendered_videos st'
          = <[RenderResult.render_id r := r]> (rendered_videos st)
        ∧ uuid_count st' = S (uuid_count st)
    | Raise e =>
        rendered_videos st' = rendered_videos st
        ∧ (e = HTTPException 404 (lit "Video not found. Generate first.")
           ∨ e = TypeError)
    end.
Proof.
  cbv zeta.
  destruct (steady_render_video env request st) as (Hf & Hg & Hs & _).
  split; [done|]. split; [done|]. split; [done|].
  destruct (generated_videos st !! VideoRenderRequest.video_id request)
    as [video|] eqn:Hvideo.
  - destruct (narration_of env (Video.script video)) as [narration|e] eqn:Hn.
    + destruct (render_video_known env request st video narration Hvideo Hn)
        as (b & st1 & r & st' & _ & -> & Hid & _ & Hstore & _ & _ & Hu & _).
      by cbn.
    + destruct (render_video_bad_narration env request st video e Hvideo Hn)
        as (st' & -> & Hstore). cbn. split; [done|].
      right. by eapply narration_of_raises.
  - rewrite render_video_unknown by done. cbn. split; [done|]. by left.
Qed.

(** ** Scripts as [generate_video] stores them *)

Section StoredScripts.

(** The video of a miss carries the script built from the generator's
    answer. *)
Lemma generate_video_miss_script env request st fact :
  let fact_id := VideoGenerateRequest.fact_id request in
  let vibe := VideoGenerateRequest.vibe request in
  extracted_facts st !! fact_id = Some fact →
  generated_videos st !! cache_key_of fact_id vibe = None →
  ∃ video st' script_data st0,
    generate_video env request st = (Ok video, st')
    ∧ AIService.generate_video_script env (Fact.fact fact) vibe st
      = (Ok script_data, st0)
    ∧ Video.id video = uuid4_stream env (uuid_count st)
    ∧ Video.script video
      = script_of (Video.id video) fact_id (Fact.fact fact) script_data
    ∧ generated_videos st' !! Video.id video = Some video.
Proof.
  intros fact_id vibe Hf Hv. unfold generate_video, bind at 1, get_state.
  cbv zeta. fold fact_id vibe. rewrite Hf, Hv.
  pose proof (steady_generate_video_script env (Fact.fact fact) vibe st)
    as Hgen. cbv zeta in Hgen.
  assert (∃ script_data st1,
            AIService.generate_video_script env (Fact.fact fact) vibe st
            = (Ok script_data, st1)) as (script_data & st1 & Hcall).
  { unfold AIService.generate_video_script, bind, get_state, modify. cbn.
    destruct (negb (AIService.client env)); [by eexists _, _|].
    destruct (gemini_script _ _ _ _); by eexists _, _. }
  rewrite Hcall in Hgen. cbn in Hgen. destruct Hgen as (_ & _ & _ & Hu1 & _).
  rewrite (bind_ok _ _ _ _ _ Hcall).
  eexists _, _, script_data, st1. split; [reflexivity|]. cbn.
  rewrite Hu1. split; [done|]. split; [done|]. split; [done|].
  apply lookup_insert_eq.
Qed.

Lemma generate_video_script_fallback env fact vibe st :
  AIService.client env = false
  ∨ gemini_script env fact vibe (length (script_calls st)) = None →
  (AIService.generate_video_script env fact vibe st).1
  = Ok (AIService._mock_generate_script fact vibe).
Proof.
  unfold AIService.generate_video_script, bind, get_state, modify. cbn.
  intros [->| ->]; cbn; [done|]. by destruct (negb (AIService.client env)).
Qed.

Lemma fallback_script_text_fields video_id fact_id fact vibe :
  text_fields
    (script_of video_id fact_id fact (AIService._mock_generate_script fact vibe))
    (lit "Okay but like...")
    [py_prefix 40 fact ++ lit "..."; lit "This is actually SO important";
     lit "Remember this fr fr"].
Proof. split; vm_compute; reflexivity. Qed.

Lemma fallback_script_narration env video_id fact_id fact vibe :
  narration_of env
    (script_of video_id fact_id fact (AIService._mock_generate_script fact vibe))
  = Ok (lit "Okay but like..." ++ lit "... "
        ++ (py_prefix 40 fact ++ lit "..." ++ lit " "
            ++ lit "This is actually SO important" ++ lit " "
            ++ lit "Remember this fr fr")
        ++ lit ". Remember: " ++ py_prefix 35 fact ++ lit "!").
Proof.
  unfold narration_of.
  replace (dict_get _ (lit "body") _)
    with (VList [VStr (py_prefix 40 fact ++ lit "...");
                 VStr (lit "This is actually SO important");
                 VStr (lit "Remember this fr fr")])
    by (vm_compute; reflexivity).
  replace (dict_get _ (lit "hook") _) with (VStr (lit "Okay but like..."))
    by (vm_compute; reflexivity).
  replace (dict_get _ (lit "repeat_phrase") _) with (VStr (py_prefix 35 fact))
    by (vm_compute; reflexivity).
  cbn [join_object all_strings rbind py_join py_str].
  by rewrite <- !(assoc_L (++)).
Qed.

End StoredScripts.

(** X13. With the fallback script (no model client, or a model call that
    fails) the pipeline goes through: a first [generate_video] for a known
    fact returns a video whose hook is a string and whose body is three
    strings, and every render request for that video returns a result. *)
Theorem fallback_script_always_renders (env : Env)
    (request : VideoGenerateRequest.t) (st : State) (fact : Fact.t) :
  let fact_id := VideoGenerateRequest.fact_id request in
  let vibe := VideoGenerateRequest.vibe request in
  AIService.client env = false
  ∨ gemini_script env (Fact.fact fact) vibe (length (script_calls st)) = None →
  extracted_facts st !! fact_id = Some fact →
  generated_videos st !! cache_key_of fact_id vibe = None →
  ∃ video st1,
    generate_video env request st = (Ok video, st1)
    ∧ text_fields (Video.script video) (lit "Okay but like...")
        [py_prefix 40 (Fact.fact fact) ++ lit "...";
         lit "This is actually SO important"; lit "Remember this fr fr"]
    ∧ ∀ render_request,
        VideoRenderRequest.video_id render_request = Video.id video →
        ∃ r st2, render_video env render_request st1 = (Ok r, st2).
Proof.
  intros fact_id vibe. subst fact_id vibe. intros Hfallback Hf Hmiss.
  destruct (generate_video_miss_script env request st fact Hf Hmiss)
    as (video & st1 & script_data & st0 & Hgen & Hcall & _ & Hscript & Hstored).
  apply generate_video_script_fallback in Hfallback.
  assert (script_data
          = AIService._mock_generate_script (Fact.fact fact)
              (VideoGenerateRequest.vibe request)) as ->
    by (rewrite Hcall in Hfallback; cbn [fst] in Hfallback; congruence).
  exists video, st1. split; [done|]. rewrite Hscript.
  split; [apply (fallback_script_text_fields _ _ _ (VideoGenerateRequest.vibe request))|].
  intros render_request Hid. rewrite <- Hid in Hstored.
  destruct (render_video_known env render_request st1 video _ Hstored
              (eq_trans (f_equal _ Hscript)
                 (fallback_script_narration env _ _ _
                    (VideoGenerateRequest.vibe request))))
    as (b & st2 & r & st3 & _ & Hr & _).
  by exists r, st3.
Qed.

Lemma fallback_script_always_renders_witness :
  ∃ video st1 r st2,
    generate_video Sample.env Sample.generate_request Sample.start
    = (Ok video, st1)
    ∧ render_video Sample.env Sample.render_request st1 = (Ok r, st2).
Proof.
  destruct (fallback_script_always_renders Sample.env Sample.generate_request
              Sample.start
              {| Fact.fact := lit "Water boils at 100 C";
                 Fact.srs_status := lit "new" |})
    as (video & st1 & Hgen & _ & Hrender).
  - by left.
  - vm_compute. reflexivity.
  - vm_compute. reflexivity.
  - destruct (Hrender Sample.render_request) as (r & st2 & Hr).
    + assert ((generate_video Sample.env Sample.generate_request
                 Sample.start).1 = Ok Sample.video) as Hv
        by (vm_compute; reflexivity).
      rewrite Hgen in Hv. by injection Hv as ->.
    + by exists video, st1, r, st2.
Defined.

(** X14. The background the generator suggests is not used.  The stored
    script keeps it under [background], the assembler reads
    [bg_suggestion], so for every stored script the command takes the
    subway_surfers asset (or the solid colour when that file is missing),
    whatever the generator answered. *)
Theorem generator_background_is_ignored (env : Env)
    (video_id fact_id fact : pystr) (script_data : pydict)
    (audio_path : option pystr) (output_path : pystr) (st : State)
    (hook : pystr) (body : list pystr) :
  let script := script_of video_id fact_id fact script_data in
  text_fields script hook body →
  script !! lit "background"
  = Some (dict_get script_data (lit "bg_suggestion")
            (VStr (lit "subway_surfers")))
  ∧ script !! lit "bg_suggestion" = None
  ∧ ∃ text_filter,
      VideoService.assemble_command env script audio_path output_path st
      = (Ok ([VideoService.FFMPEG_PATH env; lit "-y"]
             ++ (if bool_decide (is_Some (files st !! subway_surfers_path))
                 then [lit "-stream_loop"; lit "-1"; lit "-i";
                       subway_surfers_path; lit "-t"; lit "15"]
                 else [lit "-f"; lit "lavfi"; lit "-i";
                       lit "color=c=0x667eea:s=1080x1920:d=15"])
             ++ VideoService.output_args (audio_input st audio_path)
                  text_filter output_path), st).
Proof.
  intros script Htext.
  split; [vm_compute; reflexivity|]. split; [vm_compute; reflexivity|].
  destruct (assemble_command_ok env script audio_path output_path st hook body
              (lit "subway_surfers.mp4") Htext) as (text_filter & Hcmd).
  { subst script. rewrite stored_script_background. reflexivity. }
  exists text_filter. rewrite Hcmd. fold subway_surfers_path.
  by case_bool_decide.
Qed.

Lemma generator_background_is_ignored_witness :
  let script :=
    script_of (lit "v") (lit "f1") (lit "Water boils at 100 C")
      {[ lit "hook" := VStr (lit "WAIT");
         lit "body" := VList [VStr (lit "Water boils")];
         lit "bg_suggestion" := VStr (lit "minecraft") ]} in
  script !! lit "background" = Some (VStr (lit "minecraft"))
  ∧ ∃ cmd,
      (VideoService.assemble_command Sample.env script None (lit "out.mp4")
         Sample.start).1 = Ok cmd
      ∧ cmd !! 5%nat = Some (lit "color=c=0x667eea:s=1080x1920:d=15").
Proof.
  intros script.
  destruct (generator_background_is_ignored Sample.env (lit "v") (lit "f1")
              (lit "Water boils at 100 C")
              {[ lit "hook" := VStr (lit "WAIT");
                 lit "body" := VList [VStr (lit "Water boils")];
                 lit "bg_suggestion" := VStr (lit "minecraft") ]}
              None (lit "out.mp4") Sample.start (lit "WAIT")
              [lit "Water boils"])
    as (Hbackground & _ & text_filter & Hcmd).
  - split; vm_compute; reflexivity.
  - split; [by vm_compute|].
    fold script in Hcmd. rewrite Hcmd. eexists. split; [reflexivity|].
    reflexivity.
Defined.

(** ** Keys of the script cache *)

Section CacheKeys.

Lemma underscore_split (a a' b b' : pystr) :
  95%N ∉ a → 95%N ∉ a' →
  a ++ 95%N :: b = a' ++ 95%N :: b' → a = a' ∧ b = b'.
Proof.
  revert a'. induction a as [|x a IH]; intros [|x' a'] Ha Ha' Heq; cbn in Heq.
  - by injection Heq as ->.
  - injection Heq as <- _. exfalso. apply Ha'. left.
  - injection Heq as -> _. exfalso. apply Ha. left.
  - injection Heq as -> Heq.
    destruct (IH a') as [-> ->]; try done.
    + intros ?. apply Ha. by right.
    + intros ?. apply Ha'. by right.
Qed.

(** Without the restriction on fact ids the key is ambiguous. *)
Lemma cache_key_collision :
  cache_key_of (lit "a_b") (Some (lit "c"))
  = cache_key_of (lit "a") (Some (lit "b_c")).
Proof. reflexivity. Qed.

Lemma generate_video_state_cases env request st :
  let fact_id := VideoGenerateRequest.fact_id request in
  let vibe := VideoGenerateRequest.vibe request in
  match extracted_facts st !! fact_id,
        generated_videos st !! cache_key_of fact_id vibe with
  | Some fact, None =>
      ∃ video st',
        generate_video env request st = (Ok video, st')
        ∧ Video.id video = uuid4_stream env (uuid_count st)
        ∧ generated_videos st'
          = <[Video.id video := video]>
              (<[cache_key_of fact_id vibe := video]> (generated_videos st))
  | Some fact, Some video => generate_video env request st = (Ok video, st)
  | None, _ =>
      generate_video env request st
      = (Raise (HTTPException 404 (lit "Fact not found")), st)
  end.
Proof.
  intros fact_id vibe.
  destruct (extracted_facts st !! fact_id) as [fact|] eqn:Hf.
  - destruct (generated_videos st !! cache_key_of fact_id vibe) as [v|] eqn:Hv.
    + by eapply generate_video_hit.
    + destruct (generate_video_miss env request st fact Hf Hv)
        as (video & st' & Hgen & Hid & _ & _ & Hg & _).
      by exists video, st'.
  - by apply generate_video_unknown.
Qed.

End CacheKeys.

(** X15. For fact ids without an underscore (the ids ingestion hands out
    are uuids) the cache key determines the request: two keys are equal
    exactly when the fact ids are equal and the vibes print alike.  A vibe
    of [None] and the string [None] print alike. *)
Theorem cache_key_injective (fact_id fact_id' : pystr)
    (vibe vibe' : option pystr) :
  95%N ∉ fact_id → 95%N ∉ fact_id' →
  cache_key_of fact_id vibe = cache_key_of fact_id' vibe'
  ↔ fact_id = fact_id' ∧ str_of_optional vibe = str_of_optional vibe'.
Proof.
  intros Hf Hf'. unfold cache_key_of. change (lit "_") with [95%N]. cbn.
  split.
  - by apply underscore_split.
  - by intros [-> ->].
Qed.

Lemma cache_key_injective_witness :
  (cache_key_of (lit "f1") None = cache_key_of (lit "f1") (Some (lit "None"))
   ↔ lit "f1" = lit "f1"
     ∧ str_of_optional None = str_of_optional (Some (lit "None")))
  ∧ cache_key_of (lit "f1") None
    = cache_key_of (lit "f1") (Some (lit "None")).
Proof.
  split; [|reflexivity].
  apply (cache_key_injective (lit "f1") (lit "f1") None (Some (lit "None"))).
  - apply (bool_decide_unpack (95%N ∉ lit "f1")). vm_compute. exact I.
  - apply (bool_decide_unpack (95%N ∉ lit "f1")). vm_compute. exact I.
Defined.

(** X16. A newly generated video takes two entries of the video store,
    one under the cache key and one under its identifier; a cache hit and
    an unknown fact leave the whole state as it was. *)
Theorem video_store_grows_by_two (env : Env)
    (request : VideoGenerateRequest.t) (st : State) :
  let fact_id := VideoGenerateRequest.fact_id request in
  let vibe := VideoGenerateRequest.vibe request in
  let st' := (generate_video env request st).2 in
  uuid4_distinct env → uuid4_no_underscore env → store_consistent env st →
  match extracted_facts st !! fact_id,
        generated_videos st !! cache_key_of fact_id vibe with
  | Some _, None =>
      size (generated_videos st') = S (S (size (generated_videos st)))
  | _, _ => st' = st
  end.
Proof.
  intros fact_id vibe st' Hdistinct Hhex Hinv. subst st'.
  pose proof (generate_video_state_cases env request st) as Hcases.
  cbv zeta in Hcases. fold fact_id vibe in Hcases.
  destruct (extracted_facts st !! fact_id) as [fact|];
    [|by rewrite Hcases].
  destruct (generated_videos st !! cache_key_of fact_id vibe) as [v|] eqn:Hv;
    [by rewrite Hcases|].
  destruct Hcases as (video & st' & -> & Hid & Hg). cbn [snd]. rewrite Hg.
  rewrite map_size_insert_None.
  - by rewrite map_size_insert_None.
  - rewrite lookup_insert_ne.
    + destruct (generated_videos st !! Video.id video) as [w|] eqn:Hw;
        [|done].
      exfalso. by eapply (fresh_identifier env Hdistinct Hhex st).
    + rewrite Hid. intros Heq.
      apply (Hhex (uuid_count st)). rewrite <- Heq.
      by apply cache_key_has_underscore.
Qed.

Lemma video_store_grows_by_two_witness :
  size (generated_videos
          (generate_video Sample.env Sample.generate_request Sample.start).2)
  = 2%nat.
Proof.
  apply (video_store_grows_by_two Sample.env Sample.generate_request
           Sample.start sample_uuid4_distinct sample_uuid4_no_underscore).
  intros k v Hk. by vm_compute in Hk.
Defined.

(** ** Batch generation *)

Section Batch.

Variable env : Env.

Lemma batch_entry_run vibe fact_id st :
  batch_entry env vibe fact_id st
  = (Ok (batch_entry_of fact_id
           (generate_video env (batch_request vibe fact_id) st).1),
     (generate_video env (batch_request vibe fact_id) st).2).
Proof.
  unfold batch_entry, try_except, bind, batch_entry_of, batch_request.
  destruct (generate_video env _ st) as [[video|e] st']; cbn; [|done].
  by destruct (Video.script video !! lit "hook").
Qed.

Lemma generate_video_facts request st :
  extracted_facts (generate_video env request st).2 = extracted_facts st.
Proof.
  destruct (generate_video_cases env request st)
    as [Hsame|(_ & video & _ & _ & _ & _ & Hf & _)]; cbv zeta in *.
  - by rewrite Hsame.
  - done.
Qed.

Lemma batch_loop_cons vibe fact_id rest st :
  batch_loop env vibe (fact_id :: rest) st
  = let st1 := (generate_video env (batch_request vibe fact_id) st).2 in
    match batch_loop env vibe rest st1 with
    | (Ok entries, st') =>
        (Ok (batch_entry_of fact_id
               (generate_video env (batch_request vibe fact_id) st).1
             :: entries), st')
    | (Raise e, st') => (Raise e, st')
    end.
Proof.
  cbn [batch_loop]. unfold bind at 1. rewrite batch_entry_run.
  unfold bind, ret. by destruct (batch_loop env vibe rest _) as [[?|?] ?].
Qed.

Lemma batch_entry_of_fact_id fact_id r :
  BatchEntry.fact_id (batch_entry_of fact_id r) = fact_id.
Proof.
  destruct r as [video|e]; cbn; [|done].
  by destruct (Video.script video !! lit "hook").
Qed.

Lemma entry_of_ok vibe fact_id st :
  batch_entry_ok (extracted_facts st)
    (batch_entry_of fact_id (generate_video env (batch_request vibe fact_id) st).1).
Proof.
  pose proof (generate_video_state_cases env (batch_request vibe fact_id) st)
    as Hcases. cbv zeta in Hcases. cbn [batch_request VideoGenerateRequest.fact_id
    VideoGenerateRequest.vibe] in Hcases.
  unfold batch_entry_ok.
  rewrite batch_entry_of_fact_id.
  revert Hcases. destruct (extracted_facts st !! fact_id) as [fact|].
  - intros Hcases.
    assert (∃ video, (generate_video env (batch_request vibe fact_id) st).1
                     = Ok video) as (video & ->).
    { revert Hcases. destruct (generated_videos st !! _) as [v|].
      - intros ->. by exists v.
      - intros (video & st' & -> & _). by exists video. }
    cbn. destruct (Video.script video !! lit "hook"); cbn; [left|right]; eauto.
  - by intros ->.
Qed.

Lemma batch_loop_spec vibe fact_ids st :
  ∃ entries st',
    batch_loop env vibe fact_ids st = (Ok entries, st')
    ∧ BatchEntry.fact_id <$> entries = fact_ids
    ∧ extracted_facts st' = extracted_facts st
    ∧ Forall (batch_entry_ok (extracted_facts st)) entries.
Proof.
  revert st. induction fact_ids as [|fact_id rest IH]; intros st.
  { by exists [], st. }
  rewrite batch_loop_cons. cbv zeta.
  destruct (IH (generate_video env (batch_request vibe fact_id) st).2)
    as (entries & st' & -> & Hids & Hfacts & Hok).
  rewrite generate_video_facts in Hfacts, Hok.
  eexists _, st'. split; [reflexivity|]. split; [|split; [done|]].
  - cbn [fmap list_fmap]. by rewrite Hids, batch_entry_of_fact_id.
  - constructor; [apply entry_of_ok|done].
Qed.

Lemma success_is_not_failed : lit "success" ≠ lit "failed".
Proof. intros H. vm_compute in H. discriminate. Qed.

Lemma count_status_total facts (entries : list BatchEntry.t) :
  Forall (batch_entry_ok facts) entries →
  count_status (lit "success") entries + count_status (lit "failed") entries
  = Z.of_nat (length entries).
Proof.
  unfold count_status. induction 1 as [|entry entries Hentry _ IH]; [done|].
  assert (BatchEntry.status entry = lit "success"
          ∨ BatchEntry.status entry = lit "failed") as Hstatus.
  { unfold batch_entry_ok in Hentry.
    destruct (facts !! _);
      [destruct Hentry as [(? & _)|(? & _)]|destruct Hentry as (? & _)];
      auto. }
  pose proof success_is_not_failed.
  rewrite !filter_cons.
  destruct Hstatus as [Hs|Hs]; rewrite !Hs;
    repeat case_decide; try congruence; cbn [length]; lia.
Qed.

(** A second run of the loop, right after the first, finds every video in
    the cache. *)
Lemma batch_loop_again vibe fact_ids st entries st1 :
  uuid4_distinct env → uuid4_no_underscore env →
  store_consistent env st →
  batch_loop env vibe fact_ids st = (Ok entries, st1) →
  store_consistent env st1
  ∧ (∀ k v, generated_videos st !! k = Some v →
            generated_videos st1 !! k = Some v)
  ∧ extracted_facts st1 = extracted_facts st
  ∧ batch_loop env vibe fact_ids st1 = (Ok entries, st1).
Proof.
  intros Hdistinct Hhex. revert st entries.
  induction fact_ids as [|fact_id rest IH]; intros st entries Hinv Hrun.
  { cbn in Hrun. injection Hrun as <- <-. split; [done|]. by split. }
  rewrite batch_loop_cons in Hrun. cbv zeta in Hrun.
  set (request := batch_request vibe fact_id) in *.
  destruct (generate_video_consistent env Hdistinct Hhex request st Hinv)
    as (Hinv1 & Hkeep1).
  destruct (batch_loop env vibe rest (generate_video env request st).2)
    as [[entries'|e] st'] eqn:Hrest; [|done].
  injection Hrun as <- <-.
  destruct (IH _ _ Hinv1 Hrest) as (Hinv' & Hkeep' & Hfacts' & Hagain).
  rewrite generate_video_facts in Hfacts'.
  split; [done|]. split; [by auto|]. split; [done|].
  rewrite batch_loop_cons. cbv zeta. fold request.
  assert (generate_video env request st'
          = ((generate_video env request st).1, st')) as ->.
  { pose proof (generate_video_state_cases env request st) as Hcases.
    cbv zeta in Hcases. revert Hcases.
    destruct (extracted_facts st !! VideoGenerateRequest.fact_id request)
      as [fact|] eqn:Hfact; intros Hcases.
    - assert (∃ video st1,
                generate_video env request st = (Ok video, st1))
        as (video & st1 & Hgen).
      { revert Hcases. destruct (generated_videos st !! _) as [v|].
        - intros ->. by eauto.
        - intros (video & st1 & ? & _). by eauto. }
      destruct (generate_video_stores_key env request st video st1 Hgen)
        as (_ & _ & Hkey).
      rewrite Hgen in *. cbn [fst snd] in *.
      apply (generate_video_hit env request st' fact video).
      + by rewrite Hfacts'.
      + by apply Hkeep'.
    - rewrite Hcases. cbn [fst].
      apply generate_video_unknown. by rewrite Hfacts'. }
  cbn [snd]. by rewrite Hagain.
Qed.

End Batch.

(** X17. A batch never raises for a known source, whatever the facts: it
    returns one entry per processed fact id, in order, the two counters add
    up to their number, and a fact id that is not in the fact store gives a
    failed entry carrying the 404 of [generate_video] while the loop goes
    on.  The fact store is not touched. *)
Theorem batch_isolates_failures (env : Env)
    (ingested_content : gmap pystr (list pystr)) (source_id vibe : pystr)
    (limit : Z) (st : State) (content_fact_ids : list pystr) :
  ingested_content !! source_id = Some content_fact_ids →
  ∃ result st',
    batch_generate_videos env ingested_content source_id vibe limit st
    = (Ok result, st')
    ∧ BatchEntry.fact_id <$> BatchResult.results result
      = py_slice_to limit content_fact_ids
    ∧ BatchResult.generated result + BatchResult.failed result
      = Z.of_nat (length (py_slice_to limit content_fact_ids))
    ∧ extracted_facts st' = extracted_facts st
    ∧ ∀ entry, entry ∈ BatchResult.results result →
        match extracted_facts st !! BatchEntry.fact_id entry with
        | None =>
            BatchEntry.status entry = lit "failed"
            ∧ BatchEntry.video_id entry = None
            ∧ BatchEntry.error entry
              = Some (HTTPException 404 (lit "Fact not found"))
        | Some _ =>
            (BatchEntry.status entry = lit "success"
             ∧ is_Some (BatchEntry.video_id entry)
             ∧ BatchEntry.error entry = None)
            ∨ (BatchEntry.status entry = lit "failed"
               ∧ BatchEntry.video_id entry = None
               ∧ BatchEntry.error entry = Some KeyError)
        end.
Proof.
  intros Hsource. unfold batch_generate_videos. rewrite Hsource. cbv zeta.
  destruct (batch_loop_spec env vibe (py_slice_to limit content_fact_ids) st)
    as (entries & st' & Hloop & Hids & Hfacts & Hok).
  rewrite (bind_ok _ _ _ _ _ Hloop).
  eexists _, st'. split; [reflexivity|]. cbn.
  split; [done|]. split.
  - rewrite (count_status_total _ _ Hok), <- Hids. by rewrite length_fmap.
  - split; [done|]. intros entry Hentry.
    by apply (proj1 (Forall_forall _ _) Hok).
Qed.

Lemma batch_isolates_failures_witness :
  ∃ result st',
    batch_generate_videos Sample.env Sample2.ingested_content (lit "s2")
      (lit "hype") 10 Sample.start = (Ok result, st')
    ∧ BatchEntry.fact_id <$> BatchResult.results result
      = [lit "f1"; lit "gone"]
    ∧ BatchResult.generated result + BatchResult.failed result = 2.
Proof.
  destruct (batch_isolates_failures Sample.env Sample2.ingested_content
              (lit "s2") (lit "hype") 10 Sample.start [lit "f1"; lit "gone"])
    as (result & st' & Hrun & Hids & Hcount & _).
  - vm_compute. reflexivity.
  - by exists result, st'.
Defined.

(** X18. Running the same batch again, right after the first run, returns
    the same result and leaves the whole state as it is: every video is
    found in the cache, no script is generated and no identifier drawn. *)
Theorem batch_twice_is_batch_once (env : Env)
    (ingested_content : gmap pystr (list pystr)) (source_id vibe : pystr)
    (limit : Z) (st st1 : State) (result : BatchResult.t) :
  uuid4_distinct env → uuid4_no_underscore env →
  store_consistent env st →
  batch_generate_videos env ingested_content source_id vibe limit st
  = (Ok result, st1) →
  batch_generate_videos env ingested_content source_id vibe limit st1
  = (Ok result, st1).
Proof.
  intros Hdistinct Hhex Hinv. unfold batch_generate_videos.
  destruct (ingested_content !! source_id) as [content_fact_ids|]; [|done].
  cbv zeta. unfold bind.
  destruct (batch_loop env vibe _ st) as [[entries|e] st'] eqn:Hloop; [|done].
  intros [= <- <-].
  destruct (batch_loop_again env vibe _ st entries st' Hdistinct Hhex Hinv
              Hloop) as (_ & _ & _ & ->).
  reflexivity.
Qed.

Lemma batch_twice_is_batch_once_witness :
  let run := batch_generate_videos Sample.env Sample2.ingested_content
               (lit "s1") (lit "hype") 10 in
  run (run Sample.start).2 = run Sample.start
  ∧ length (script_calls (run Sample.start).2) = 1%nat.
Proof.
  intros run. split; [|vm_compute; reflexivity].
  destruct (run Sample.start) as [[result|e] st1] eqn:Hrun.
  - rewrite <- Hrun at 2. cbn [snd].
    rewrite Hrun.
    apply (batch_twice_is_batch_once Sample.env Sample2.ingested_content
             (lit "s1") (lit "hype") 10 Sample.start st1 result
             sample_uuid4_distinct sample_uuid4_no_underscore).
    + intros k v Hk. by vm_compute in Hk.
    + exact Hrun.
  - exfalso. assert ((run Sample.start).1 ≠ Raise e) as Hne
      by (vm_compute; discriminate).
    by rewrite Hrun in Hne.
Defined.
